(** * rogp.core: Gaussian-process predictors embedded in an optimisation model

    A shallow embedding of [rogp/core.py]: the classes [Standard] and
    [Warped] and the factory [from_gpy].

    Conventions of the embedding.
    - numpy arrays are two-dimensional [ndarray]s: a shape and an indexing
    function (three-dimensional ones, [ndarray3], appear in
    [Warped._warp_deriv] only).  Shape mismatches raise, as in numpy, and
    so do [np.vectorize] and [np.nditer] on arrays without elements;
    [np.vectorize] takes the type of its result from the first value.  The
    memory layout of an array is not part of an [ndarray]: where the code
    depends on it ([np.nditer] visits the elements as they lie in memory)
    the layout is an argument.
    - the element type [T] is left open ([Scalar]): Python floats are read
    as real numbers ([R_Scalar]; rounding, overflow and NaN are not
    modelled, so what is proved of floats is proved of exact arithmetic),
    and the elements of an object array, floats or pyomo expressions, as
    terms ([expr_Scalar]).
    - exceptions are values of [exn] (class name and message); fallible
    code returns a [result].
    - the collaborators that live outside [core.py] ([kernels], [util],
    [scipy.optimize], [pyomo]) are taken as parameters. *)

From Stdlib Require Import Reals Lra Lia List String Arith Bool.
Import ListNotations.

Set Implicit Arguments.

(** ** Exceptions and results *)

Record exn := mk_exn { exn_class : string; exn_msg : string }.

Definition ValueError (msg : string) := mk_exn "ValueError" msg.
Definition RuntimeError (msg : string) := mk_exn "RuntimeError" msg.
Definition AttributeError (msg : string) := mk_exn "AttributeError" msg.
Definition NotImplementedError (msg : string) := mk_exn "NotImplementedError" msg.

Inductive result (A : Type) : Type :=
| Ok (a : A)
| Raise (e : exn).

Arguments Ok {A} a.
Arguments Raise {A} e.

Definition bind {A B : Type} (m : result A) (k : A -> result B) : result B :=
  match m with
  | Ok a => k a
  | Raise e => Raise e
  end.

Notation "x <- m ;; k" := (bind m (fun x => k))
(at level 61, m at next level, right associativity).

(** ** Scalars: the arithmetic protocol of array elements *)

(** [is_expression v] tells a pyomo expression object from a number: of a
    number, [v == 0] is a Python bool; of an expression, it is a relational
    expression. *)
Class Scalar (T : Type) : Type := {
  s0 : T;
  s1 : T;
  sadd : T -> T -> T;
  ssub : T -> T -> T;
  smul : T -> T -> T;
  spow : T -> nat -> T;
  is_expression : T -> bool
}.

#[export] Instance R_Scalar : Scalar R := {
  s0 := 0%R;
  s1 := 1%R;
  sadd := Rplus;
  ssub := Rminus;
  smul := Rmult;
  spow := pow;
  is_expression := fun _ => false
}.

(** the elements of an object array: a float, or a pyomo expression over
    decision variables.  The trees record the operations applied; the node
    classes pyomo chooses for them are not modelled. *)
Inductive expr : Type :=
| Num (r : R)
| Var (v : nat)
| SumExpression (a b : expr)
| DiffExpression (a b : expr)
| ProductExpression (a b : expr)
| PowExpression (a : expr) (n : nat)
| TanhExpression (a : expr).

(** arithmetic of two floats is float arithmetic; with a pyomo object on
    either side it builds an expression *)
Definition expr_binary (op : R -> R -> R) (node : expr -> expr -> expr)
    (a b : expr) : expr :=
  match a, b with
  | Num x, Num y => Num (op x y)
  | _, _ => node a b
  end.

Definition expr_pow (a : expr) (n : nat) : expr :=
  match a with
  | Num x => Num (x ^ n)
  | _ => PowExpression a n
  end.

(** [pyomo.environ.tanh]: the hyperbolic tangent of a float, an expression
    node otherwise *)
Definition pyomo_tanh (a : expr) : expr :=
  match a with
  | Num x => Num (tanh x)
  | _ => TanhExpression a
  end.

#[export] Instance expr_Scalar : Scalar expr := {
  s0 := Num 0;
  s1 := Num 1;
  sadd := expr_binary Rplus SumExpression;
  ssub := expr_binary Rminus DiffExpression;
  smul := expr_binary Rmult ProductExpression;
  spow := expr_pow;
  is_expression := fun e => match e with Num _ => false | _ => true end
}.

(** value of an expression under a valuation of the decision variables *)
Fixpoint value (rho : nat -> R) (e : expr) : R :=
  match e with
  | Num r => r
  | Var v => rho v
  | SumExpression a b => (value rho a + value rho b)%R
  | DiffExpression a b => (value rho a - value rho b)%R
  | ProductExpression a b => (value rho a * value rho b)%R
  | PowExpression a n => (value rho a ^ n)%R
  | TanhExpression a => tanh (value rho a)
  end.

(** ** numpy *)

Module np.
Section Arrays.
Context {T : Type} `{Scalar T}.

(** one-dimensional array *)
Record vec : Type := mk_vec { len : nat; vitem : nat -> T }.

(** two-dimensional array *)
Record ndarray : Type :=
  mk_nd { shape0 : nat; shape1 : nat; item : nat -> nat -> T }.

(** three-dimensional array *)
Record ndarray3 : Type :=
  mk_nd3 { dim0 : nat; dim1 : nat; dim2 : nat;
           item3 : nat -> nat -> nat -> T }.

Definition size (A : ndarray) : nat := shape0 A * shape1 A.

(** [np.array([[v]])] *)
Definition array11 (v : T) : ndarray := mk_nd 1 1 (fun _ _ => v).

(** [np.array([a, b])], kept as a single row *)
Definition array12 (a b : T) : ndarray :=
  mk_nd 1 2 (fun _ j => match j with O => a | _ => b end).

(** the array of the rows [l], each row padded or cut to [c] columns *)
Definition of_rows (c : nat) (l : list (list T)) : ndarray :=
  mk_nd (List.length l) c (fun i j => nth j (nth i l []) s0).

(** elementwise application of a function that does not raise, as in
    scalar-array arithmetic *)
Definition map (f : T -> T) (A : ndarray) : ndarray :=
  mk_nd (shape0 A) (shape1 A) (fun i j => f (item A i j)).

Definition map3 (f : T -> T) (A : ndarray3) : ndarray3 :=
  mk_nd3 (dim0 A) (dim1 A) (dim2 A) (fun i j k => f (item3 A i j k)).

(** broadcasting of one axis: equal lengths, or one of them is 1 *)
Definition bdim (a b : nat) : option nat :=
  if a =? b then Some a
  else if a =? 1 then Some b
  else if b =? 1 then Some a
  else None.

(** index into an axis of length [d] that is broadcast *)
Definition bidx (d i : nat) : nat := if d =? 1 then 0 else i.

Definition broadcast_error : exn :=
  ValueError "operands could not be broadcast together".

(** binary elementwise operation with broadcasting *)
Definition broadcast2 (op : T -> T -> T) (A B : ndarray) : result ndarray :=
  match bdim (shape0 A) (shape0 B), bdim (shape1 A) (shape1 B) with
  | Some r, Some c =>
      Ok (mk_nd r c (fun i j =>
            op (item A (bidx (shape0 A) i) (bidx (shape1 A) j))
               (item B (bidx (shape0 B) i) (bidx (shape1 B) j))))
  | _, _ => Raise broadcast_error
  end.

Definition subtract := broadcast2 ssub.
Definition add := broadcast2 sadd.

(** [A += B]: the result must have the shape of [A] *)
Definition iadd (A B : ndarray) : result ndarray :=
  match bdim (shape0 A) (shape0 B), bdim (shape1 A) (shape1 B) with
  | Some r, Some c =>
      if (r =? shape0 A) && (c =? shape1 A) then
        Ok (mk_nd r c (fun i j =>
              sadd (item A i j)
                   (item B (bidx (shape0 B) i) (bidx (shape1 B) j))))
      else Raise (ValueError "non-broadcastable output operand")
  | _, _ => Raise broadcast_error
  end.

(** sum of [f 0 .. f (n-1)] *)
Fixpoint sum_n (n : nat) (f : nat -> T) : T :=
  match n with
  | O => s0
  | S m => sadd (sum_n m f) (f m)
  end.

Definition matmul (A B : ndarray) : result ndarray :=
  if shape1 A =? shape0 B then
    Ok (mk_nd (shape0 A) (shape1 B) (fun i j =>
          sum_n (shape1 A) (fun k => smul (item A i k) (item B k j))))
  else Raise (ValueError "matmul: mismatch in its core dimension").

(** [A.T] *)
Definition transpose (A : ndarray) : ndarray :=
  mk_nd (shape1 A) (shape0 A) (fun i j => item A j i).

(** [np.repeat(v, n)] for a scalar [v] *)
Definition repeat (v : T) (n : nat) : vec := mk_vec n (fun _ => v).

(** [np.diag(v)] for a one-dimensional [v] *)
Definition diag (v : vec) : ndarray :=
  mk_nd (len v) (len v) (fun i j => if i =? j then vitem v i else s0).

(** the elements in row-major order *)
Definition flat (A : ndarray) : list T :=
  flat_map (fun i => List.map (fun j => item A i j) (seq 0 (shape1 A)))
           (seq 0 (shape0 A)).

(** the memory layout of a freshly allocated two-dimensional array: row
    after row (C) or column after column (Fortran) *)
Inductive layout : Type := C_order | F_order.

(** the elements as they lie in memory *)
Definition in_memory_order (o : layout) (A : ndarray) : list T :=
  match o with
  | C_order => flat A
  | F_order => flat (transpose A)
  end.

(** [np.nditer(A)] for an array [A] laid out as [o]: the default order
    ['K'] visits the elements as they lie in memory, and an array without
    elements is refused *)
Definition nditer (o : layout) (A : ndarray) : result (list T) :=
  if size A =? 0 then
    Raise (ValueError "Iteration of zero-sized operands is not enabled")
  else Ok (in_memory_order o A).

(** the first exception in a list of results *)
Fixpoint first_raise (l : list (result T)) : option exn :=
  match l with
  | [] => None
  | Ok _ :: rest => first_raise rest
  | Raise e :: _ => Some e
  end.

Definition vectorize_error : exn :=
  ValueError "cannot call `vectorize` on size 0 inputs unless `otypes` is set".

Definition conversion_error : exn :=
  mk_exn "TypeError"
         "Implicit conversion of Pyomo numeric value to float is disabled".

(** the values of [B] fit an array of the type of the first of them: an
    array of objects holds any value, an array of floats holds numbers
    and no pyomo object *)
Definition one_dtype (B : ndarray) : bool :=
  is_expression (item B 0 0) ||
  forallb (fun v => negb (is_expression v)) (flat B).

(** [np.vectorize(f)(A)]: an array without elements is refused; otherwise
    [f] is applied to every element, the first exception leaves the call,
    and the values are stored in an array of the type of the first
    value *)
Definition vectorize (f : T -> result T) (A : ndarray) : result ndarray :=
  if size A =? 0 then Raise vectorize_error
  else
    match first_raise (List.map f (flat A)) with
    | Some e => Raise e
    | None =>
        let B := mk_nd (shape0 A) (shape1 A) (fun i j =>
                   match f (item A i j) with
                   | Ok v => v
                   | Raise _ => s0
                   end) in
        if one_dtype B then Ok B else Raise conversion_error
    end.

(** *** three-dimensional arrays *)

(** [A[:, :, None]] *)
Definition expand_last (A : ndarray) : ndarray3 :=
  mk_nd3 (shape0 A) (shape1 A) 1 (fun i j _ => item A i j).

(** a one-dimensional array seen with shape (1, 1, n), as broadcasting
    against a three-dimensional array aligns it *)
Definition as_11n (v : vec) : ndarray3 :=
  mk_nd3 1 1 (len v) (fun _ _ k => vitem v k).

(** [v[:, :, None]] for a column [v] of shape (n, 1) *)
Definition as_n11 (v : vec) : ndarray3 :=
  mk_nd3 (len v) 1 1 (fun i _ _ => vitem v i).

Definition broadcast3 (op : T -> T -> T) (A B : ndarray3)
  : result ndarray3 :=
  match bdim (dim0 A) (dim0 B), bdim (dim1 A) (dim1 B),
        bdim (dim2 A) (dim2 B) with
  | Some p, Some q, Some r =>
      Ok (mk_nd3 p q r (fun i j k =>
            op (item3 A (bidx (dim0 A) i) (bidx (dim1 A) j)
                        (bidx (dim2 A) k))
               (item3 B (bidx (dim0 B) i) (bidx (dim1 B) j)
                        (bidx (dim2 B) k))))
  | _, _, _ => Raise broadcast_error
  end.

(** [A.T] reverses the axes *)
Definition transpose3 (A : ndarray3) : ndarray3 :=
  mk_nd3 (dim2 A) (dim1 A) (dim0 A) (fun i j k => item3 A k j i).

(** the elements of a three-dimensional array, the last axis fastest *)
Definition flat3 (A : ndarray3) : list T :=
  flat_map (fun i =>
    flat_map (fun j => List.map (fun k => item3 A i j k) (seq 0 (dim2 A)))
             (seq 0 (dim1 A)))
    (seq 0 (dim0 A)).

Definition one_dtype3 (B : ndarray3) : bool :=
  is_expression (item3 B 0 0 0) ||
  forallb (fun v => negb (is_expression v)) (flat3 B).

(** [np.vectorize(f)(A)] on a three-dimensional array *)
Definition vectorize3 (f : T -> result T) (A : ndarray3) : result ndarray3 :=
  if dim0 A * dim1 A * dim2 A =? 0 then Raise vectorize_error
  else
    match first_raise (List.map f (flat3 A)) with
    | Some e => Raise e
    | None =>
        let B := mk_nd3 (dim0 A) (dim1 A) (dim2 A) (fun i j k =>
                   match f (item3 A i j k) with
                   | Ok v => v
                   | Raise _ => s0
                   end) in
        if one_dtype3 B then Ok B else Raise conversion_error
    end.

(** [A.sum(axis=0)] *)
Definition sum_axis0 (A : ndarray3) : ndarray :=
  mk_nd (dim1 A) (dim2 A) (fun j k =>
    sum_n (dim0 A) (fun i => item3 A i j k)).

End Arrays.
Arguments vec T : clear implicits.
Arguments ndarray T : clear implicits.
Arguments ndarray3 T : clear implicits.
End np.

Import np.

(** ** Collaborators outside [core.py] *)

(** [util]: normalizers.  The module is not part of [core.py]; a [Norm] is
    any object with the three methods the predictors call. *)
Module util.
Record Norm (T : Type) : Type := {
  normalize : ndarray T -> ndarray T;
  inverse_mean : ndarray T -> ndarray T;
  inverse_variance : ndarray T -> ndarray T
}.

Record Normalizer (T : Type) : Type := { x : Norm T; y : Norm T }.

Definition IdentityNorm (T : Type) : Norm T :=
  {| normalize := fun a => a;
     inverse_mean := fun a => a;
     inverse_variance := fun a => a |}.
End util.

(** [identity_norm = util.Normalizer(x=util.IdentityNorm(), y=util.IdentityNorm())] *)
Definition identity_norm (T : Type) : util.Normalizer T :=
  {| util.x := util.IdentityNorm T; util.y := util.IdentityNorm T |}.

(** [kernels]: a kernel object offers [calc] and is callable; the module
    maps a name to a constructor taking lengthscale and variance.  A name
    the module does not define makes [getattr] raise [AttributeError]. *)
Module kernels.
Record Kernel (T : Type) : Type := {
  calc : ndarray T -> ndarray T -> ndarray T;
  call : ndarray T -> ndarray T -> ndarray T
}.

Definition module (T : Type) : Type :=
  string -> option (T -> T -> result (Kernel T)).

Definition getattr {T : Type} (m : module T) (name : string)
  : result (T -> T -> result (Kernel T)) :=
  match m name with
  | Some ctor => Ok ctor
  | None =>
      Raise (AttributeError
               ("module 'rogp.kernels' has no attribute '" ++ name ++ "'"))
  end.
End kernels.

(** [GPy]: the attributes of a trained model that the predictors read *)
Module GPy.
Record WarpingFunction (T : Type) : Type := {
  d : T;
  psi : list (T * T * T)
}.

Record GPRegression (T : Type) : Type := {
  posterior_woodbury_vector : ndarray T;
  posterior_woodbury_inv : ndarray T;
  kern_lengthscale_0 : T;
  kern_variance_0 : T;
  likelihood_variance_0 : T;
  _predictive_variable : ndarray T
}.

Record WarpedGP (T : Type) : Type := {
  base : GPRegression T;
  warping_function : WarpingFunction T
}.
End GPy.

(** [pyomo]: relational expressions and constraint containers *)
Module pyomo.
Record constraint (T : Type) : Type :=
  EqualityExpression { lhs : T; rhs : T }.

Definition ConstraintList (T : Type) : Type := list (constraint T).

(** what [e == 0] is in Python: a relational expression when [e] is a
    pyomo expression, a bool when [e] is a number *)
Inductive relation (T : Type) : Type :=
| Relational (c : constraint T)
| Boolean.

Arguments Boolean {T}.

Definition equals_zero {T : Type} `{Scalar T} (e : T) : relation T :=
  if is_expression e then Relational (EqualityExpression e s0) else Boolean.

Definition trivial_boolean_error : exn :=
  ValueError "Invalid constraint expression: it resolved to a trivial Boolean".

(** [cons.add(c)]: the constraint is appended; a trivial Boolean is
    refused *)
Definition add {T : Type} (cons : ConstraintList T) (c : relation T)
  : result (ConstraintList T) :=
  match c with
  | Relational c => Ok (cons ++ [c])
  | Boolean => Raise trivial_boolean_error
  end.

(** a valuation satisfies an equality constraint *)
Definition holds (rho : nat -> R) (c : constraint expr) : Prop :=
  value rho (lhs c) = value rho (rhs c).
End pyomo.

(** ** class Standard *)

Module Standard.
Section Standard.
Context {T : Type} `{Scalar T}.

(** the attributes of an instance; [kern] is absent when the constructor
    went through its [except] branch *)
Record self : Type := {
  gp : GPy.GPRegression T;
  norm : util.Normalizer T;
  woodbury_vector : ndarray T;
  woodbury_inv : ndarray T;
  kern : option (kernels.Kernel T);
  likelihood_variance : T;
  X : ndarray T;
  N : nat
}.

Definition not_implemented_message (kern : string) : string :=
  "Kernel " ++ kern ++ " is not implemented".

(** [Standard(gp, kern, norm)]: what is printed, and the instance or the
    exception that leaves the constructor *)
Definition __init__ (km : kernels.module T) (gp : GPy.GPRegression T)
    (kern : string) (norm : util.Normalizer T)
  : list string * result self :=
  let finish (k : option (kernels.Kernel T)) : self :=
    {| gp := gp;
       norm := norm;
       woodbury_vector := GPy.posterior_woodbury_vector gp;
       woodbury_inv := GPy.posterior_woodbury_inv gp;
       kern := k;
       likelihood_variance := GPy.likelihood_variance_0 gp;
       X := GPy._predictive_variable gp;
       N := shape0 (GPy._predictive_variable gp) |} in
  match
    ctor <- kernels.getattr km kern ;;
    ctor (GPy.kern_lengthscale_0 gp) (GPy.kern_variance_0 gp)
  with
  | Ok k => ([], Ok (finish (Some k)))
  | Raise e =>
      if String.eqb (exn_class e) "NotImplementedError"
      then ([not_implemented_message kern], Ok (finish None))
      else ([], Raise e)
  end.

(** [self.kern] *)
Definition get_kern (s : self) : result (kernels.Kernel T) :=
  match kern s with
  | Some k => Ok k
  | None =>
      Raise (AttributeError "object has no attribute 'kern'")
  end.

Definition _predict_mu (s : self) (x : ndarray T) : result (ndarray T) :=
  k <- get_kern s ;;
  let K_x_X := kernels.calc k x (X s) in
  matmul K_x_X (woodbury_vector s).

(** [predict_mu(x, z=None, cons=None)]: the value returned and the
    constraint container after the call *)
Definition predict_mu (s : self) (x : ndarray T)
    (z : option (ndarray T)) (cons : option (pyomo.ConstraintList T))
  : result (ndarray T) * option (pyomo.ConstraintList T) :=
  let x_norm := util.normalize (util.x (norm s)) x in
  (y <- _predict_mu s x_norm ;;
   Ok (util.inverse_mean (util.y (norm s)) y),
   cons).

Definition _predict_cov (s : self) (x : ndarray T) : result (ndarray T) :=
  k <- get_kern s ;;
  let K_x_x := kernels.call k x x in
  let K_x_X := kernels.call k x (X s) in
  KW <- matmul K_x_X (woodbury_inv s) ;;
  KWK <- matmul KW (transpose K_x_X) ;;
  SIG <- subtract K_x_x KWK ;;
  iadd SIG (diag (repeat (likelihood_variance s) (shape0 x))).

Definition predict_cov (s : self) (x : ndarray T) : result (ndarray T) :=
  let x := util.normalize (util.x (norm s)) x in
  cov_norm <- _predict_cov s x ;;
  let cov := util.inverse_variance (util.y (norm s)) cov_norm in
  Ok cov.

Definition predict (s : self) (x : ndarray T)
  : result (ndarray T * ndarray T) :=
  mu <- fst (predict_mu s x None None) ;;
  cov <- predict_cov s x ;;
  Ok (mu, cov).

End Standard.
Arguments self T : clear implicits.
End Standard.

(** ** class Warped(Standard) *)

Module Warped.
Section Warped.
Context {T : Type} `{Scalar T}.

(** [pyomo.environ.tanh] and [util.numpy.tanh] *)
Variables (p_tanh util_numpy_tanh : T -> T).

(** the attributes of an instance: those of [Standard], the warped model
    behind [self.gp], and the function that [self.tanh] vectorizes, taken
    on the elements on which it returns: pyomo's [tanh] on floats and on
    expressions, numpy's on floats *)
Record self : Type := {
  super : Standard.self T;
  gp : GPy.WarpedGP T;
  tanh : T -> T
}.

Definition set_tanh (s : self) (tanh : bool) : self :=
  if tanh then {| super := super s; gp := gp s; tanh := p_tanh |}
  else {| super := super s; gp := gp s; tanh := util_numpy_tanh |}.

(** [Warped(gp, kern, norm, tanh)]; the attribute [tanh] does not exist
    before [set_tanh] runs, the value given to it there is never read *)
Definition __init__ (km : kernels.module T) (gp : GPy.WarpedGP T)
    (kern : string) (norm : util.Normalizer T) (tanh : bool)
  : list string * result self :=
  let (out, r) := Standard.__init__ km (GPy.base gp) kern norm in
  (out,
   s <- r ;;
   Ok (set_tanh {| super := s; gp := gp; tanh := fun v => v |} tanh)).

(** [self.tanh(A)], a call of [np.vectorize(tanh)] *)
Definition call_tanh (s : self) (A : ndarray T) : result (ndarray T) :=
  np.vectorize (fun v => Ok (tanh s v)) A.

(** the body of the loop of [_warp], over the rows of [mpsi] *)
Fixpoint _warp_loop (s : self) (mpsi : list (T * T * T))
    (y z : ndarray T) : result (ndarray T) :=
  match mpsi with
  | [] => Ok z
  | (a, b, c) :: rest =>
      t <- call_tanh s (np.map (smul b) (np.map (fun v => sadd v c) y)) ;;
      z' <- iadd z (np.map (smul a) t) ;;
      _warp_loop s rest y z'
  end.

Definition _warp (s : self) (y : ndarray T) : result (ndarray T) :=
  let d := GPy.d (GPy.warping_function (gp s)) in
  let mpsi := GPy.psi (GPy.warping_function (gp s)) in
  let z := np.map (smul d) y in
  _warp_loop s mpsi y z.

Definition warp (s : self) (y : ndarray T) : result (ndarray T) :=
  let y_norm := util.normalize (util.y (Standard.norm (super s))) y in
  _warp s y_norm.

(** [mpsi[:, k]] for k = 0, 1, 2 *)
Definition column (k : nat) (mpsi : list (T * T * T)) : vec T :=
  mk_vec (List.length mpsi) (fun t =>
    match nth_error mpsi t with
    | Some (a, b, c) =>
        match k with O => a | S O => b | _ => c end
    | None => s0
    end).

Definition _warp_deriv (s : self) (y : ndarray T) : result (ndarray T) :=
  let d := GPy.d (GPy.warping_function (gp s)) in
  let mpsi := GPy.psi (GPy.warping_function (gp s)) in
  yc <- broadcast3 sadd (expand_last y) (as_11n (column 2 mpsi)) ;;
  byc <- broadcast3 smul (as_11n (column 1 mpsi)) yc ;;
  let S := transpose3 byc in
  R <- np.vectorize3 (fun v => Ok (tanh s v)) S ;;
  let D := np.map3 (fun r => ssub s1 (spow r 2)) R in
  ab <- broadcast3 smul (as_n11 (column 0 mpsi))
                        (as_n11 (column 1 mpsi)) ;;
  abD <- broadcast3 smul ab D ;;
  let GRAD := transpose (np.map (fun v => sadd d v) (sum_axis0 abD)) in
  Ok GRAD.

Definition warp_deriv (s : self) (y : ndarray T) : result (ndarray T) :=
  let y_norm := util.normalize (util.y (Standard.norm (super s))) y in
  _warp_deriv s y_norm.

(** the loop [for d in ...: cons.add(d.item() == 0)]: the container
    after the loop, and the exception that ended it if there was one *)
Fixpoint add_each (ds : list T) (cons : pyomo.ConstraintList T)
  : pyomo.ConstraintList T * result unit :=
  match ds with
  | [] => (cons, Ok tt)
  | d :: rest =>
      match pyomo.add cons (pyomo.equals_zero d) with
      | Ok cons' => add_each rest cons'
      | Raise e => (cons, Raise e)
      end
  end.

(** [predict_mu(x, y, cons)]: the constraint container after the call,
    and the value returned or the exception raised.  [o] is the memory
    layout of [diff], which numpy derives from those of its operands. *)
Definition predict_mu (o : layout) (s : self) (x y : ndarray T)
    (cons : pyomo.ConstraintList T)
  : pyomo.ConstraintList T * result (ndarray T) :=
  let x_norm := util.normalize (util.x (Standard.norm (super s))) x in
  match
    z <- Standard._predict_mu (super s) x_norm ;;
    wy <- warp s y ;;
    diff <- subtract wy z ;;
    nditer o diff
  with
  | Raise e => (cons, Raise e)
  | Ok ds =>
      let (cons', r) := add_each ds cons in
      (cons', _ <- r ;; Ok y)
  end.

Definition predict_mu_latent (s : self) (x : ndarray T)
  : result (ndarray T) :=
  let x_norm := util.normalize (util.x (Standard.norm (super s))) x in
  Standard._predict_mu (super s) x_norm.

Definition predict_cov_latent (s : self) (x : ndarray T)
  : result (ndarray T) :=
  let x := util.normalize (util.x (Standard.norm (super s))) x in
  Standard._predict_cov (super s) x.

Definition predict_latent (s : self) (x : ndarray T)
  : result (ndarray T * ndarray T) :=
  mu <- predict_mu_latent s x ;;
  cov <- predict_cov_latent s x ;;
  Ok (mu, cov).

Definition predict (o : layout) (s : self) (x z : ndarray T)
    (cons : pyomo.ConstraintList T) :=
  predict_mu o s x z cons.

Definition predict_cov_warning : string :=
  "Cant predict variance in observation space. Predicting in latent space instead".

(** [predict_cov(x)]: the warnings issued and the value returned *)
Definition predict_cov (s : self) (x : ndarray T)
  : list string * result (ndarray T) :=
  ([predict_cov_warning], predict_cov_latent s x).

End Warped.
Arguments self T : clear implicits.

(** *** inversion of the warp, on floats *)
Section Inverse.

(** [scipy.optimize.root_scalar(f, args, bracket=bracket)] followed by
    [.root]: it is given the objective, which returns an array, and the
    bracket *)
Variable root_scalar : (R -> result (ndarray R)) -> R * R -> result R.

(** [f(y, xi)] of [_warp_inv_scalar] *)
Definition objective (s : self R) (xi : R) (y : R) : result (ndarray R) :=
  z <- _warp s (array11 y) ;;
  Ok (np.map (fun v => ssub v xi) z).

Definition _warp_inv_scalar (s : self R) (xi : R) (bracket : R * R)
  : result R :=
  match root_scalar (objective s xi) bracket with
  | Ok root => Ok root
  | Raise _ => Raise (RuntimeError "Failed to find root")
  end.

Definition warp_inv_scalar (s : self R) (xi : R) (bracket : R * R)
  : result R :=
  let ny := util.y (Standard.norm (super s)) in
  let nb := util.normalize ny (array12 (fst bracket) (snd bracket)) in
  let bracket := (item nb 0 0, item nb 0 1) in
  y_norm <- _warp_inv_scalar s xi bracket ;;
  Ok (item (util.inverse_mean ny (array11 y_norm)) 0 0).

(** the default [bracket] of [_warp_inv_scalar] *)
Definition default_bracket : R * R := (-5 / 2, 5 / 2)%R.

(** [self._warp_inv = np.vectorize(self._warp_inv_scalar)] *)
Definition _warp_inv (s : self R) (xi : ndarray R) : result (ndarray R) :=
  np.vectorize (fun v => _warp_inv_scalar s v default_bracket) xi.

Definition warp_inv (s : self R) (xi : ndarray R) : result (ndarray R) :=
  y_norm <- _warp_inv s xi ;;
  Ok (util.inverse_mean (util.y (Standard.norm (super s))) y_norm).

End Inverse.
End Warped.

(** ** from_gpy *)

Section Factory.
Context {T : Type} `{Scalar T}.
Variables (p_tanh util_numpy_tanh : T -> T).

(** [from_gpy(gp, kern, norm, **kwargs)]: [gp] has the attribute
    [warping_function] or not; [kwargs] holds [tanh] or is empty *)
Definition from_gpy (km : kernels.module T)
    (gp : GPy.GPRegression T + GPy.WarpedGP T) (kern : string)
    (norm : util.Normalizer T) (kwargs : option bool)
  : list string * result (Standard.self T + Warped.self T) :=
  match gp with
  | inr wgp =>
      let tanh := match kwargs with Some b => b | None => true end in
      let (out, r) :=
        Warped.__init__ p_tanh util_numpy_tanh km wgp kern norm tanh in
      (out, w <- r ;; Ok (inr w))
  | inl g =>
      match kwargs with
      | Some _ =>
          ([], Raise (mk_exn "TypeError"
                 "__init__() got an unexpected keyword argument 'tanh'"))
      | None =>
          let (out, r) := Standard.__init__ km g kern norm in
          (out, s <- r ;; Ok (inl s))
      end
  end.
End Factory.

(** ** scipy.optimize: what is assumed of a bracketing root finder *)

Module scipy.
(** the objective evaluates at [y] to an array of shape (1, 1) that holds
    [v] *)
Definition value_at (f : R -> result (ndarray R)) (y v : R) : Prop :=
  exists A, f y = Ok A /\ shape0 A = 1 /\ shape1 A = 1 /\ item A 0 0 = v.

(** a root finder that reads such arrays as floats refuses a bracket
    without a sign change *)
Definition checks_bracket
    (root_scalar : (R -> result (ndarray R)) -> R * R -> result R) : Prop :=
  forall f a b fa fb,
    value_at f a fa -> value_at f b fb -> (0 < fa * fb)%R ->
    root_scalar f (a, b) =
      Raise (ValueError "f(a) and f(b) must have different signs").

(** the root finder stores the value of the objective at the first end
    of the bracket in a C double: an objective that returns an array
    there makes it raise when NumPy does not convert arrays of more than
    zero dimensions to scalars (a [TypeError] in recent versions, a
    deprecation warning in older ones) *)
Definition refuses_arrays
    (root_scalar : (R -> result (ndarray R)) -> R * R -> result R) : Prop :=
  forall f a b A, f a = Ok A -> exists e, root_scalar f (a, b) = Raise e.

Definition array_conversion_error : exn :=
  mk_exn "TypeError" "only 0-dimensional arrays can be converted to Python scalars".

(** a root finder that evaluates the objective at the first end of the
    bracket and fails to convert the array it gets *)
Definition array_refusing_solver (f : R -> result (ndarray R))
    (bracket : R * R) : result R :=
  _ <- f (fst bracket) ;;
  Raise array_conversion_error.

(** a root finder that checks the bracket as [brentq] does and then
    returns what the iteration [iterate] finds *)
Definition bracketing_solver (iterate : (R -> R) -> R -> R -> R)
    (f : R -> result (ndarray R)) (bracket : R * R) : result R :=
  let (a, b) := bracket in
  fa <- f a ;;
  fb <- f b ;;
  if Rlt_dec 0 (item fa 0 0 * item fb 0 0) then
    Raise (ValueError "f(a) and f(b) must have different signs")
  else
    Ok (iterate (fun y => match f y with
                          | Ok A => item A 0 0
                          | Raise _ => 0%R
                          end) a b).
End scipy.

(** ** Reference instances of the collaborators *)

(** Modelled from the spec: [kernels.py] is not among the sources; the
    registry holds at least a radial-basis (squared-exponential) kernel,
    evaluated between every row of the first point set and every row of
    the second one. *)
Definition sqdist (a b : ndarray R) (i j : nat) : R :=
  sum_n (shape1 a) (fun k => ((item a i k - item b j k) ^ 2)%R).

Definition RBF (lengthscale variance : R) : kernels.Kernel R :=
  let k (a b : ndarray R) :=
    mk_nd (shape0 a) (shape0 b) (fun i j =>
      (variance * exp (- sqdist a b i j / (2 * lengthscale ^ 2)))%R) in
  {| kernels.calc := k; kernels.call := k |}.

(** a kernel class whose constructor is a stub *)
Definition stub_kernel (lengthscale variance : R)
  : result (kernels.Kernel R) :=
  Raise (NotImplementedError "").

Definition kernels_module : kernels.module R :=
  fun name =>
    if String.eqb name "RBF" then Some (fun l v => Ok (RBF l v))
    else if String.eqb name "Matern32" then Some stub_kernel
    else None.

(** the constant kernel [k(a, b) = 1] *)
Definition constant_kernel {T : Type} `{Scalar T} : kernels.Kernel T :=
  let k (a b : ndarray T) := mk_nd (shape0 a) (shape0 b) (fun _ _ => s1) in
  {| kernels.calc := k; kernels.call := k |}.

(** the linear kernel [k(a, b) = a . b] *)
Definition linear_kernel : kernels.Kernel R :=
  let k (a b : ndarray R) :=
    mk_nd (shape0 a) (shape0 b) (fun i j =>
      sum_n (shape1 a) (fun q => (item a i q * item b j q)%R)) in
  {| kernels.calc := k; kernels.call := k |}.


(** ** Properties of arrays *)

(** a kernel returns one row per point of its first argument and one
    column per point of its second *)
Definition well_shaped {T : Type} (k : kernels.Kernel T) : Prop :=
  forall a b : ndarray T,
    shape0 (kernels.calc k a b) = shape0 a /\
    shape1 (kernels.calc k a b) = shape0 b /\
    shape0 (kernels.call k a b) = shape0 a /\
    shape1 (kernels.call k a b) = shape0 b.

Definition square {T : Type} (n : nat) (A : ndarray T) : Prop :=
  shape0 A = n /\ shape1 A = n.



(** the values of [B] are pyomo objects from the first on, or all
    numbers: they fit one array *)
Definition storable {T : Type} `{Scalar T} (B : ndarray T) : Prop :=
  is_expression (item B 0 0) = true \/
  forall i j, i < shape0 B -> j < shape1 B ->
    is_expression (item B i j) = false.

(** what [self.tanh] returns on [b * (y + c)] fits one array, for every
    row of [mpsi] *)
Definition tanh_storable {T : Type} `{Scalar T} (s : Warped.self T)
    (mpsi : list (T * T * T)) (y : ndarray T) : Prop :=
  forall a b c, In (a, b, c) mpsi ->
    storable (np.map (fun v => Warped.tanh s (smul b (sadd v c))) y).



(** ** The formulas of the specification *)

(** [d*y + sum_i a_i * tanh(b_i * (y + c_i))] *)
Definition tanh_warp (d : R) (mpsi : list (R * R * R)) (y : R) : R :=
  (d * y +
   fold_right Rplus 0
     (List.map (fun '(a, b, c) => a * Rtrigo_def.tanh (b * (y + c))) mpsi))%R.

(** [d + sum_i a_i * b_i * (1 - tanh(b_i * (y + c_i))^2)] *)
Definition tanh_warp_deriv (d : R) (mpsi : list (R * R * R)) (y : R) : R :=
  (d +
   fold_right Rplus 0
     (List.map (fun '(a, b, c) =>
                  a * b * (1 - Rtrigo_def.tanh (b * (y + c)) ^ 2)) mpsi))%R.

(** the covariance as the specification writes it, with [K(X,x)] transposed
    as the last factor *)
Definition predict_cov_as_written {T : Type} `{Scalar T}
    (s : Standard.self T) (x : ndarray T) : result (ndarray T) :=
  let x := util.normalize (util.x (Standard.norm s)) x in
  k <- Standard.get_kern s ;;
  KW <- matmul (kernels.call k x (Standard.X s)) (Standard.woodbury_inv s) ;;
  KWK <- matmul KW (transpose (kernels.call k (Standard.X s) x)) ;;
  SIG <- subtract (kernels.call k x x) KWK ;;
  SIG <- iadd SIG (diag (repeat (Standard.likelihood_variance s) (shape0 x))) ;;
  Ok (util.inverse_variance (util.y (Standard.norm s)) SIG).

(** ** Example models *)

(** two training points on the line, a unit RBF kernel *)
Definition example_gp : GPy.GPRegression R :=
  {| GPy.posterior_woodbury_vector := of_rows 1 [[1]; [1]]%R;
     GPy.posterior_woodbury_inv := of_rows 2 [[1; 0]; [0; 1]]%R;
     GPy.kern_lengthscale_0 := 1%R;
     GPy.kern_variance_0 := 1%R;
     GPy.likelihood_variance_0 := 1%R;
     GPy._predictive_variable := of_rows 1 [[0]; [1]]%R |}.

(** [Standard(example_gp)] *)
Definition example_standard : Standard.self R :=
  {| Standard.gp := example_gp;
     Standard.norm := identity_norm R;
     Standard.woodbury_vector := GPy.posterior_woodbury_vector example_gp;
     Standard.woodbury_inv := GPy.posterior_woodbury_inv example_gp;
     Standard.kern := Some (RBF 1 1);
     Standard.likelihood_variance := 1%R;
     Standard.X := GPy._predictive_variable example_gp;
     Standard.N := 2 |}.

(** the training points 1 and 1 under the linear kernel *)
Definition linear_standard : Standard.self R :=
  {| Standard.gp := example_gp;
     Standard.norm := identity_norm R;
     Standard.woodbury_vector := of_rows 1 [[1]; [1]]%R;
     Standard.woodbury_inv := of_rows 2 [[1; 0]; [0; 1]]%R;
     Standard.kern := Some linear_kernel;
     Standard.likelihood_variance := 1%R;
     Standard.X := of_rows 1 [[1]; [1]]%R;
     Standard.N := 2 |}.

(** the warp [y + tanh(y)] *)
Definition example_warping : GPy.WarpingFunction R :=
  {| GPy.d := 1%R; GPy.psi := [(1, 1, 0)]%R |}.

Definition example_warped : Warped.self R :=
  {| Warped.super := example_standard;
     Warped.gp := {| GPy.base := example_gp;
                     GPy.warping_function := example_warping |};
     Warped.tanh := Rtrigo_def.tanh |}.



(** a warped predictor over pyomo expressions: one training point, the
    constant kernel, the warp [2*y + 3*tanh(2*(y + 1))] built with pyomo's
    [tanh] *)
Definition symbolic_warped : Warped.self expr :=
  let g :=
    {| GPy.posterior_woodbury_vector := array11 (Num 2);
       GPy.posterior_woodbury_inv := array11 (Num 1);
       GPy.kern_lengthscale_0 := Num 1;
       GPy.kern_variance_0 := Num 1;
       GPy.likelihood_variance_0 := Num 1;
       GPy._predictive_variable := array11 (Num 0) |} in
  {| Warped.super :=
       {| Standard.gp := g;
          Standard.norm := identity_norm expr;
          Standard.woodbury_vector := array11 (Num 2);
          Standard.woodbury_inv := array11 (Num 1);
          Standard.kern := Some constant_kernel;
          Standard.likelihood_variance := Num 1;
          Standard.X := array11 (Num 0);
          Standard.N := 1 |};
     Warped.gp :=
       {| GPy.base := g;
          GPy.warping_function :=
            {| GPy.d := Num 2; GPy.psi := [(Num 3, Num 2, Num 1)] |} |};
     Warped.tanh := pyomo_tanh |}.

(** what the loop of [_warp] accumulates in one element *)
Fixpoint loop_entry {T : Type} `{Scalar T} (th : T -> T)
    (mpsi : list (T * T * T)) (v acc : T) : T :=
  match mpsi with
  | [] => acc
  | (a, b, c) :: rest =>
      loop_entry th rest v (sadd acc (smul a (th (smul b (sadd v c)))))
  end.

(** the parameters of a warp as GPy constrains them: a positive linear
    coefficient, non-negative amplitudes and slopes *)
Definition monotone_parameters (w : GPy.WarpingFunction R) : Prop :=
  (0 < GPy.d w)%R /\
  Forall (fun '(a, b, c) => 0 <= a /\ 0 <= b)%R (GPy.psi w).

(** a registry whose RBF constructor refuses its arguments *)
Definition refusing_module : kernels.module R :=
  fun name =>
    if String.eqb name "RBF"
    then Some (fun l v => Raise (ValueError "lengthscale must be positive"))
    else None.

(** the warped example as [Warped(gp, kern='Matern32')] leaves it: without
    kernel attribute *)
Definition kernelless_warped : Warped.self R :=
  {| Warped.super :=
       {| Standard.gp := example_gp;
          Standard.norm := identity_norm R;
          Standard.woodbury_vector := GPy.posterior_woodbury_vector example_gp;
          Standard.woodbury_inv := GPy.posterior_woodbury_inv example_gp;
          Standard.kern := None;
          Standard.likelihood_variance := 1%R;
          Standard.X := GPy._predictive_variable example_gp;
          Standard.N := 2 |};
     Warped.gp := {| GPy.base := example_gp;
                     GPy.warping_function := example_warping |};
     Warped.tanh := Rtrigo_def.tanh |}.

(** the rows of [mpsi] under a valuation *)
Definition psi_values (rho : nat -> R) (mpsi : list (expr * expr * expr))
  : list (R * R * R) :=
  List.map (fun '(a, b, c) => (value rho a, value rho b, value rho c)) mpsi.

(** * Proofs *)

(** ** Broadcasting and sums *)

Section ArrayFacts.
Context {T : Type} `{Scalar T}.

Lemma bdim_refl (a : nat) : bdim a a = Some a.
Proof. unfold bdim. now rewrite Nat.eqb_refl. Qed.

Lemma bdim_1_r (a : nat) : bdim a 1 = Some a.
Proof.
  unfold bdim. destruct (a =? 1) eqn:E; [|reflexivity].
  apply Nat.eqb_eq in E. now subst.
Qed.

Lemma bdim_1_l (b : nat) : bdim 1 b = Some b.
Proof.
  unfold bdim. destruct (1 =? b) eqn:E; [|reflexivity].
  apply Nat.eqb_eq in E. now subst.
Qed.

Lemma bidx_lt (d i : nat) : i < d -> bidx d i = i.
Proof.
  unfold bidx. destruct (d =? 1) eqn:E; [|reflexivity].
  apply Nat.eqb_eq in E. lia.
Qed.

(** the axis that results from broadcasting is as long as the longer one,
    so an index in range for the result is in range, or broadcast, for
    each operand *)
Lemma bdim_bidx_l (a b r i : nat) :
  bdim a b = Some r -> i < r -> bidx a i < a.
Proof.
  unfold bdim, bidx. intros E Hi.
  destruct (a =? b) eqn:E1.
  - injection E as <-. destruct (a =? 1); lia.
  - destruct (a =? 1) eqn:E2.
    + apply Nat.eqb_eq in E2. lia.
    + destruct (b =? 1); [injection E as <-; lia | discriminate].
Qed.

Lemma iadd_same_shape (A B : ndarray T) :
  shape0 B = shape0 A -> shape1 B = shape1 A ->
  iadd A B =
    Ok (mk_nd (shape0 A) (shape1 A) (fun i j =>
          sadd (item A i j)
               (item B (bidx (shape0 B) i) (bidx (shape1 B) j)))).
Proof.
  intros E0 E1. unfold iadd. rewrite E0, E1, !bdim_refl.
  now rewrite !Nat.eqb_refl.
Qed.

Lemma sum_n_ext (n : nat) (f g : nat -> T) :
  (forall k, k < n -> f k = g k) -> sum_n n f = sum_n n g.
Proof.
  induction n as [|n IH]; intros E; [reflexivity|].
  simpl. rewrite (IH (fun k Hk => E k (Nat.lt_lt_succ_r _ _ Hk))).
  now rewrite (E n (Nat.lt_succ_diag_r n)).
Qed.

Lemma flat_length (A : ndarray T) :
  List.length (flat A) = shape0 A * shape1 A.
Proof.
  unfold flat. generalize (seq 0 (shape0 A)) (length_seq (shape0 A) 0).
  intros l. revert l. induction (shape0 A) as [|r IH]; intros l E.
  - destruct l; [reflexivity | discriminate].
  - destruct l as [|i l]; [discriminate|].
    simpl. rewrite length_app, length_map, length_seq.
    rewrite (IH l); [reflexivity | now injection E].
Qed.

Lemma In_flat (A : ndarray T) (v : T) :
  In v (flat A) <->
  exists i j, i < shape0 A /\ j < shape1 A /\ v = item A i j.
Proof.
  unfold flat. rewrite in_flat_map. split.
  - intros (i & Hi & Hv). apply in_map_iff in Hv.
    destruct Hv as (j & <- & Hj).
    apply in_seq in Hi, Hj. exists i, j. repeat split; lia.
  - intros (i & j & Hi & Hj & ->). exists i. split.
    + apply in_seq. lia.
    + apply in_map_iff. exists j. split; [reflexivity|]. apply in_seq. lia.
Qed.

(** whatever the layout, the elements visited are those of the array *)
Lemma In_memory_order (o : layout) (A : ndarray T) (v : T) :
  In v (in_memory_order o A) <->
  exists i j, i < shape0 A /\ j < shape1 A /\ v = item A i j.
Proof.
  destruct o; simpl; rewrite In_flat; [reflexivity|]. simpl. split.
  - intros (i & j & Hi & Hj & ->). exists j, i. auto.
  - intros (i & j & Hi & Hj & ->). exists j, i. auto.
Qed.

Lemma Forall_memory_order {B : Type} (P : B -> Prop) (f : T -> B)
    (o : layout) (A : ndarray T) :
  Forall P (List.map f (in_memory_order o A)) <->
  forall i j, i < shape0 A -> j < shape1 A -> P (f (item A i j)).
Proof.
  rewrite Forall_forall. split.
  - intros HP i j Hi Hj. apply HP. apply in_map. apply In_memory_order.
    exists i, j. auto.
  - intros HP b Hb. apply in_map_iff in Hb. destruct Hb as (v & <- & Hv).
    apply In_memory_order in Hv. destruct Hv as (i & j & Hi & Hj & ->).
    now apply HP.
Qed.

(** an axis that broadcasts to a positive length has a positive length *)
Lemma bdim_pos (a b r : nat) : bdim a b = Some r -> 0 < r -> 0 < a /\ 0 < b.
Proof.
  unfold bdim. intros E Hr.
  destruct (a =? b) eqn:E1.
  - apply Nat.eqb_eq in E1. injection E as <-. lia.
  - destruct (a =? 1) eqn:E2.
    + apply Nat.eqb_eq in E2. injection E as <-. lia.
    + destruct (b =? 1) eqn:E3; [|discriminate].
      apply Nat.eqb_eq in E3. injection E as <-. lia.
Qed.

Lemma in_memory_order_length (o : layout) (A : ndarray T) :
  List.length (in_memory_order o A) = shape0 A * shape1 A.
Proof.
  destruct o; simpl; rewrite flat_length; [reflexivity|].
  simpl. apply Nat.mul_comm.
Qed.

(** an array with elements is iterated in memory order *)
Lemma nditer_elements (o : layout) (A : ndarray T) :
  0 < shape0 A -> 0 < shape1 A -> nditer o A = Ok (in_memory_order o A).
Proof.
  intros H0 H1. unfold nditer, size.
  destruct (shape0 A * shape1 A =? 0) eqn:E; [|reflexivity].
  apply Nat.eqb_eq in E. nia.
Qed.

Lemma first_raise_total (f : T -> T) (l : list T) :
  first_raise (List.map (fun v => Ok (f v)) l) = None.
Proof. induction l as [|v l IH]; [reflexivity | exact IH]. Qed.

Lemma storable_one_dtype (B : ndarray T) :
  storable B -> one_dtype B = true.
Proof.
  intros [Hf | Hn]; unfold one_dtype; [now rewrite Hf|].
  apply orb_true_iff. right. apply forallb_forall. intros v Hv.
  apply In_flat in Hv. destruct Hv as (i & j & Hi & Hj & ->).
  now rewrite (Hn i j Hi Hj).
Qed.

(** a vectorized function that does not raise is applied elementwise to
    an array with elements, when its values fit one array *)
Lemma vectorize_total (f : T -> T) (A : ndarray T) :
  size A <> 0 -> storable (np.map f A) ->
  vectorize (fun v => Ok (f v)) A = Ok (np.map f A).
Proof.
  intros E Hs. unfold vectorize. apply Nat.eqb_neq in E. rewrite E.
  rewrite first_raise_total. cbv zeta.
  change (mk_nd (shape0 A) (shape1 A) _) with (np.map f A).
  now rewrite (storable_one_dtype Hs).
Qed.

(** [A += B] keeps the shape of [A] *)
Lemma iadd_shape (A B C : ndarray T) :
  iadd A B = Ok C -> shape0 C = shape0 A /\ shape1 C = shape1 A.
Proof.
  unfold iadd.
  destruct (bdim (shape0 A) (shape0 B)) as [r|]; [|discriminate].
  destruct (bdim (shape1 A) (shape1 B)) as [c|]; [|discriminate].
  destruct ((r =? shape0 A) && (c =? shape1 A)) eqn:E; [|discriminate].
  apply andb_true_iff in E. destruct E as [E0 E1].
  apply Nat.eqb_eq in E0, E1. intros [= <-]. simpl. auto.
Qed.

Lemma vectorize_empty (f : T -> result T) (A : ndarray T) :
  size A = 0 -> vectorize f A = Raise vectorize_error.
Proof. intros E. unfold vectorize. now rewrite E. Qed.

Lemma forallb_numbers (l : list T) :
  (forall v : T, is_expression v = false) ->
  forallb (fun v => negb (is_expression v)) l = true.
Proof.
  intros Hn. apply forallb_forall. intros v _. now rewrite Hn.
Qed.

(** an element type without pyomo objects: every array is an array of
    numbers *)
Lemma vectorize3_total (f : T -> T) (A : ndarray3 T) :
  (forall v : T, is_expression v = false) ->
  dim0 A * dim1 A * dim2 A <> 0 ->
  vectorize3 (fun v => Ok (f v)) A = Ok (np.map3 f A).
Proof.
  intros Hn E. unfold vectorize3. apply Nat.eqb_neq in E. rewrite E.
  rewrite first_raise_total. cbv zeta. unfold one_dtype3.
  rewrite (forallb_numbers _ Hn), orb_true_r. reflexivity.
Qed.

Lemma vectorize3_empty (f : T -> result T) (A : ndarray3 T) :
  dim0 A * dim1 A * dim2 A = 0 -> vectorize3 f A = Raise vectorize_error.
Proof. intros E. unfold vectorize3. now rewrite E. Qed.

(** adding the equations of pyomo expressions one after the other extends
    the container by their list *)
Lemma add_each_expressions (ds : list T) (cons : pyomo.ConstraintList T) :
  Forall (fun d => is_expression d = true) ds ->
  Warped.add_each ds cons =
    (cons ++ List.map (fun d => pyomo.EqualityExpression d s0) ds, Ok tt).
Proof.
  intros F. revert cons. induction F as [|d ds Hd F IH]; intros cons; simpl.
  - now rewrite app_nil_r.
  - unfold pyomo.equals_zero. rewrite Hd. simpl.
    rewrite IH. now rewrite <- app_assoc.
Qed.

(** the loop stops at the first element that is a number, with the
    equations of the elements before it added *)
Lemma add_each_number (ds ds' : list T) (d : T)
    (cons : pyomo.ConstraintList T) :
  Forall (fun d => is_expression d = true) ds ->
  is_expression d = false ->
  Warped.add_each (ds ++ d :: ds') cons =
    (cons ++ List.map (fun d => pyomo.EqualityExpression d s0) ds,
     Raise pyomo.trivial_boolean_error).
Proof.
  intros F Hd. revert cons. induction F as [|d0 ds Hd0 F IH]; intros cons; simpl.
  - unfold pyomo.equals_zero. rewrite Hd. simpl. now rewrite app_nil_r.
  - unfold pyomo.equals_zero at 1. rewrite Hd0. simpl.
    rewrite IH. now rewrite <- app_assoc.
Qed.

End ArrayFacts.

(** resolves the broadcasts of axes that are equal or of length 1 *)
Ltac broadcasts := rewrite ?bdim_1_r, ?bdim_1_l, ?bdim_refl.

(** splits a conjunction into all its parts *)
Ltac splits := repeat match goal with |- _ /\ _ => split end.

(** sums of real numbers *)
Section RealSums.
Open Scope R_scope.






(** a sum over the rows of a table is the sum over the list *)
Lemma sum_n_R_list {A : Type} (l : list A) (F : option A -> R) :
  sum_n (List.length l) (fun t => F (nth_error l t)) =
  fold_right Rplus 0 (List.map (fun a => F (Some a)) l).
Proof.
  induction l as [|a l IH] using rev_ind; [reflexivity|].
  rewrite length_app, Nat.add_comm. simpl.
  rewrite map_app, fold_right_app. simpl.
  rewrite nth_error_app2, Nat.sub_diag by lia. simpl.
  rewrite (sum_n_ext _ (fun t => F (nth_error l t))).
  - rewrite IH. clear IH.
    induction l as [|b l IHl]; simpl; [ring|]. rewrite <- IHl. ring.
  - intros k Hk. now rewrite nth_error_app1.
Qed.

End RealSums.

(** ** The Schur complement *)

Section Schur.
Open Scope R_scope.




End Schur.

(** ** The warp *)

Section WarpFacts.
Context {T : Type} `{Scalar T}.

Lemma call_tanh_elements (s : Warped.self T) (A : ndarray T) :
  size A <> 0 -> storable (np.map (Warped.tanh s) A) ->
  Warped.call_tanh s A = Ok (np.map (Warped.tanh s) A).
Proof. apply vectorize_total. Qed.

Lemma _warp_loop_spec (s : Warped.self T) (mpsi : list (T * T * T))
    (y z : ndarray T) :
  size y <> 0 \/ mpsi = [] ->
  tanh_storable s mpsi y ->
  shape0 z = shape0 y -> shape1 z = shape1 y ->
  exists z',
    Warped._warp_loop s mpsi y z = Ok z' /\
    shape0 z' = shape0 y /\ shape1 z' = shape1 y /\
    forall i j, i < shape0 y -> j < shape1 y ->
      item z' i j =
      loop_entry (Warped.tanh s) mpsi (item y i j) (item z i j).
Proof.
  intros Hy. revert z.
  induction mpsi as [|[[a b] c] rest IH]; intros z Hs E0 E1.
  - exists z. simpl. auto.
  - destruct Hy as [Hy | Hy]; [|discriminate].
    simpl. rewrite call_tanh_elements;
      [| exact Hy | exact (Hs a b c (or_introl eq_refl))].
    simpl.
    rewrite iadd_same_shape by (simpl; congruence). simpl.
    edestruct IH as (z' & Ez & S0 & S1 & Hz); cycle 4.
    + exists z'. split; [exact Ez|]. split; [exact S0|]. split; [exact S1|].
      intros i j Hi Hj. rewrite (Hz i j Hi Hj). simpl.
      now rewrite !bidx_lt.
    + now left.
    + intros a' b' c' Hin. exact (Hs a' b' c' (or_intror Hin)).
    + simpl. exact E0.
    + simpl. exact E1.
Qed.

(** whenever the loop of [_warp] returns, its result has the shape of
    the array it started from *)
Lemma _warp_loop_shape (s : Warped.self T) (mpsi : list (T * T * T))
    (y z z' : ndarray T) :
  Warped._warp_loop s mpsi y z = Ok z' ->
  shape0 z' = shape0 z /\ shape1 z' = shape1 z.
Proof.
  revert z. induction mpsi as [|[[a b] c] rest IH]; intros z; simpl.
  - intros [= <-]. auto.
  - destruct (Warped.call_tanh s _) as [t|e]; [|discriminate]. simpl.
    destruct (iadd z (np.map (smul a) t)) as [z1|e] eqn:E1; [|discriminate].
    simpl. intros E. destruct (IH _ E) as [S0 S1].
    destruct (iadd_shape _ _ E1) as [A0 A1]. split; congruence.
Qed.

Lemma _warp_shape (s : Warped.self T) (y z : ndarray T) :
  Warped._warp s y = Ok z -> shape0 z = shape0 y /\ shape1 z = shape1 y.
Proof. intros E. exact (_warp_loop_shape _ _ _ _ E). Qed.

(** on an array without elements the first call of [self.tanh] raises *)
Lemma _warp_loop_empty (s : Warped.self T) (mpsi : list (T * T * T))
    (y z : ndarray T) :
  size y = 0 -> mpsi <> [] ->
  Warped._warp_loop s mpsi y z = Raise vectorize_error.
Proof.
  intros Hy Hm. destruct mpsi as [|[[a b] c] rest]; [congruence|].
  simpl. unfold Warped.call_tanh. now rewrite vectorize_empty.
Qed.

(** [_warp] returns an array of the shape of its argument, when the
    argument has elements or the warp has no tanh term, and the values of
    [self.tanh] fit one array *)
Lemma _warp_spec (s : Warped.self T) (y : ndarray T) :
  size y <> 0 \/ GPy.psi (GPy.warping_function (Warped.gp s)) = [] ->
  tanh_storable s (GPy.psi (GPy.warping_function (Warped.gp s))) y ->
  exists z,
    Warped._warp s y = Ok z /\
    shape0 z = shape0 y /\ shape1 z = shape1 y /\
    forall i j, i < shape0 y -> j < shape1 y ->
      item z i j =
      loop_entry (Warped.tanh s)
        (GPy.psi (GPy.warping_function (Warped.gp s))) (item y i j)
        (smul (GPy.d (GPy.warping_function (Warped.gp s))) (item y i j)).
Proof.
  intros Hy Hs. unfold Warped._warp.
  destruct (@_warp_loop_spec s
              (GPy.psi (GPy.warping_function (Warped.gp s))) y
              (np.map (smul (GPy.d (GPy.warping_function (Warped.gp s)))) y)
              Hy Hs eq_refl eq_refl)
    as (z & Ez & S0 & S1 & Hz).
  exists z. auto.
Qed.

(** without pyomo objects among the elements, every array is an array
    of numbers *)
Lemma tanh_storable_numbers (s : Warped.self T) (mpsi : list (T * T * T))
    (y : ndarray T) :
  (forall v : T, is_expression v = false) -> tanh_storable s mpsi y.
Proof. intros Hn a b c _. right. intros i j _ _. apply Hn. Qed.

End WarpFacts.

(** [_warp] on floats *)
Lemma _warp_spec_R (s : Warped.self R) (y : ndarray R) :
  size y <> 0 \/ GPy.psi (GPy.warping_function (Warped.gp s)) = [] ->
  exists z,
    Warped._warp s y = Ok z /\
    shape0 z = shape0 y /\ shape1 z = shape1 y /\
    forall i j, i < shape0 y -> j < shape1 y ->
      item z i j =
      loop_entry (Warped.tanh s)
        (GPy.psi (GPy.warping_function (Warped.gp s))) (item y i j)
        (smul (GPy.d (GPy.warping_function (Warped.gp s))) (item y i j)).
Proof.
intros Hy. apply _warp_spec; [exact Hy|].
apply tanh_storable_numbers. reflexivity.
Qed.

Lemma loop_entry_R (th : R -> R) (mpsi : list (R * R * R)) (v acc : R) :
  loop_entry th mpsi v acc =
  (acc + fold_right Rplus 0
           (List.map (fun '(a, b, c) => a * th (b * (v + c))) mpsi))%R.
Proof.
revert acc. induction mpsi as [|[[a b] c] rest IH]; intros acc; simpl.
- ring.
- rewrite IH. ring.
Qed.

(** [warp] with the hyperbolic tangent as [self.tanh] *)
Lemma warp_entries (s : Warped.self R) (y : ndarray R) :
  Warped.tanh s = Rtrigo_def.tanh ->
  let y_norm := util.normalize (util.y (Standard.norm (Warped.super s))) y in
  let w := GPy.warping_function (Warped.gp s) in
  size y_norm <> 0 \/ GPy.psi w = [] ->
  exists z,
    Warped.warp s y = Ok z /\
    shape0 z = shape0 y_norm /\ shape1 z = shape1 y_norm /\
    forall i j, i < shape0 y_norm -> j < shape1 y_norm ->
      item z i j = tanh_warp (GPy.d w) (GPy.psi w) (item y_norm i j).
Proof.
intros Et y_norm w Hy. unfold Warped.warp. fold y_norm.
destruct (_warp_spec_R s y_norm Hy) as (z & Ez & S0 & S1 & Hz).
exists z. split; [exact Ez|]. split; [exact S0|]. split; [exact S1|].
intros i j Hi Hj. rewrite (Hz i j Hi Hj), loop_entry_R, Et. reflexivity.
Qed.

(** C5. For every array [y] whose normalized form has at least one
    element (or with a warp without tanh term), [warp(y)] normalizes [y]
    with the output normalizer and returns, element by element, the value
    [d*y_norm + sum_i a_i*tanh(b_i*(y_norm + c_i))] over all warping terms;
    the shape is that of the normalized array and no un-scaling of the
    output is applied.  This holds in both modes of [set_tanh], pyomo's and
    numpy's [tanh] being the hyperbolic tangent on floats, read as real
    numbers. *)
Theorem warp_is_tanh_warp (s : Warped.self R) (mode : bool) (y : ndarray R) :
  let s' := Warped.set_tanh Rtrigo_def.tanh Rtrigo_def.tanh s mode in
  let y_norm := util.normalize (util.y (Standard.norm (Warped.super s'))) y in
  let w := GPy.warping_function (Warped.gp s') in
  size y_norm <> 0 \/ GPy.psi w = [] ->
  exists z,
    Warped.warp s' y = Ok z /\
    shape0 z = shape0 y_norm /\ shape1 z = shape1 y_norm /\
    forall i j, i < shape0 y_norm -> j < shape1 y_norm ->
      item z i j = tanh_warp (GPy.d w) (GPy.psi w) (item y_norm i j).
Proof.
intros s' y_norm w Hy. apply warp_entries; [now destruct mode | exact Hy].
Qed.

(** ** The hyperbolic tangent *)

Section Tanh.
Open Scope R_scope.

Lemma cosh_pos (x : R) : 0 < cosh x.
Proof.
unfold cosh. pose proof (exp_pos x). pose proof (exp_pos (- x)). lra.
Qed.

Lemma tanh_0 : Rtrigo_def.tanh 0 = 0.
Proof. unfold Rtrigo_def.tanh. rewrite sinh_0, cosh_0. field. Qed.

Lemma derivable_pt_lim_tanh (x : R) :
  derivable_pt_lim Rtrigo_def.tanh x (1 - Rtrigo_def.tanh x ^ 2).
Proof.
pose proof (cosh_pos x) as Hc.
replace (1 - Rtrigo_def.tanh x ^ 2)
  with ((cosh x * cosh x - sinh x * sinh x) / (cosh x)²).
- change Rtrigo_def.tanh with (sinh / cosh)%F.
  apply derivable_pt_lim_div.
  + apply derivable_pt_lim_sinh.
  + apply derivable_pt_lim_cosh.
  + lra.
- unfold Rtrigo_def.tanh, Rsqr. field. lra.
Qed.

(** one warping term and its derivative *)
Lemma derivable_pt_lim_term (a b c y : R) :
  derivable_pt_lim (fun v => a * Rtrigo_def.tanh (b * (v + c))) y
    (a * b * (1 - Rtrigo_def.tanh (b * (y + c)) ^ 2)).
Proof.
replace (a * b * (1 - Rtrigo_def.tanh (b * (y + c)) ^ 2))
  with (a * ((1 - Rtrigo_def.tanh (b * (y + c)) ^ 2) * (b * (1 + 0))))
  by ring.
apply (derivable_pt_lim_scal
         (comp Rtrigo_def.tanh (fun v => b * (v + c))) a).
apply derivable_pt_lim_comp.
- apply (derivable_pt_lim_scal (fun v => v + c) b).
  apply (derivable_pt_lim_plus id (fct_cte c)).
  + apply derivable_pt_lim_id.
  + apply derivable_pt_lim_const.
- apply derivable_pt_lim_tanh.
Qed.

Lemma derivable_pt_lim_terms (mpsi : list (R * R * R)) (y : R) :
  derivable_pt_lim
    (fun v => fold_right Rplus 0
       (List.map (fun '(a, b, c) => a * Rtrigo_def.tanh (b * (v + c))) mpsi))
    y
    (fold_right Rplus 0
       (List.map (fun '(a, b, c) =>
                    a * b * (1 - Rtrigo_def.tanh (b * (y + c)) ^ 2)) mpsi)).
Proof.
induction mpsi as [|[[a b] c] rest IH]; simpl.
- apply (derivable_pt_lim_const 0).
- apply (derivable_pt_lim_plus
           (fun v => a * Rtrigo_def.tanh (b * (v + c)))
           (fun v => fold_right Rplus 0
              (List.map (fun '(a, b, c) =>
                           a * Rtrigo_def.tanh (b * (v + c))) rest))).
  + apply derivable_pt_lim_term.
  + exact IH.
Qed.

(** [tanh_warp_deriv] is the derivative of [tanh_warp] *)
Lemma derivable_pt_lim_tanh_warp (d : R) (mpsi : list (R * R * R)) (y : R) :
  derivable_pt_lim (tanh_warp d mpsi) y (tanh_warp_deriv d mpsi y).
Proof.
unfold tanh_warp_deriv.
apply (derivable_pt_lim_plus (fun v => d * v)
         (fun v => fold_right Rplus 0
            (List.map (fun '(a, b, c) =>
                         a * Rtrigo_def.tanh (b * (v + c))) mpsi))).
- pose proof (derivable_pt_lim_scal id d y 1 (derivable_pt_lim_id y)) as Hd.
  rewrite Rmult_1_r in Hd. exact Hd.
- apply derivable_pt_lim_terms.
Qed.

End Tanh.

(** ** The derivative of the warp *)

(** the broadcasts of [_warp_deriv] never fail and, with an element in
    [y] and a row in [mpsi], neither does [self.tanh]: the result has the
    shape of [y] and holds, for each element, the sum over the rows of
    [mpsi] *)
Lemma _warp_deriv_spec (s : Warped.self R) (y : ndarray R) :
  let w := GPy.warping_function (Warped.gp s) in
  size y <> 0 -> GPy.psi w <> [] ->
  exists G,
    Warped._warp_deriv s y = Ok G /\
    shape0 G = shape0 y /\ shape1 G = shape1 y /\
    forall i j, i < shape0 y -> j < shape1 y ->
      item G i j =
      (GPy.d w +
       fold_right Rplus 0
         (List.map (fun '(a, b, c) =>
            a * b * (1 - Warped.tanh s (b * (item y i j + c)) ^ 2))
            (GPy.psi w)))%R.
Proof.
intros w Hy Hm. unfold Warped._warp_deriv. fold w.
unfold broadcast3.
cbn [dim0 dim1 dim2 expand_last as_11n as_n11 Warped.column len].
broadcasts. cbn [bind dim0 dim1 dim2].
broadcasts. cbn [bind dim0 dim1 dim2].
rewrite vectorize3_total; [|reflexivity|].
2:{ cbn [dim0 dim1 dim2 transpose3]. unfold size in Hy.
    destruct (GPy.psi w); [congruence | simpl; nia]. }
cbn [bind dim0 dim1 dim2 transpose3 np.map3].
broadcasts. cbn [bind].
eexists. split; [reflexivity|].
cbn [shape0 shape1 transpose np.map sum_axis0 dim0 dim1 dim2 item item3].
splits; try reflexivity.
intros i j Hi Hj.
cbn [sadd R_Scalar]. f_equal.
set (col := fun (k : nat) (o : option (R * R * R)) =>
       match o with
       | Some (a, b, c) => match k with O => a | S O => b | _ => c end
       | None => 0%R
       end).
pose (F := fun o => (col 0%nat o * col 1%nat o *
         (1 - Warped.tanh s (col 1%nat o * (item y i j + col 2%nat o)) ^ 2))%R).
rewrite (sum_n_ext _ (fun t => F (nth_error (GPy.psi w) t))).
- rewrite (sum_n_R_list (GPy.psi w) F). f_equal.
  apply map_ext. now intros [[a b] c].
- intros t Ht. unfold F, col. cbn.
  rewrite !(bidx_lt Ht), !(bidx_lt Hi), !(bidx_lt Hj), Rmult_1_r.
  reflexivity.
Qed.

(** without an element in [y] or without a row in [mpsi], [self.tanh] is
    called on an array without elements and raises *)
Lemma _warp_deriv_empty {T : Type} `{Scalar T} (s : Warped.self T)
    (y : ndarray T) :
  size y = 0 \/ GPy.psi (GPy.warping_function (Warped.gp s)) = [] ->
  Warped._warp_deriv s y = Raise vectorize_error.
Proof.
intros Hy. unfold Warped._warp_deriv.
unfold broadcast3.
cbn [dim0 dim1 dim2 expand_last as_11n as_n11 Warped.column len].
broadcasts. cbn [bind dim0 dim1 dim2].
broadcasts. cbn [bind dim0 dim1 dim2].
rewrite vectorize3_empty; [reflexivity|].
cbn [dim0 dim1 dim2 transpose3]. unfold size in Hy.
destruct Hy as [Hy | Hy]; [nia | now rewrite Hy].
Qed.

(** C6. For every array [y] whose normalized form has an element, and a
    warp with at least one tanh term, [warp_deriv(y)] normalizes [y] with
    the output normalizer and returns an array of the shape of the
    normalized [y] whose element (i, j) is
    [d + sum_t a_t*b_t*(1 - tanh(b_t*(y_norm[i,j] + c_t))^2)]: the per-term
    axis is summed away and the two axes of [y] are kept.  That value is
    the derivative of the warp [d*v + sum_t a_t*tanh(b_t*(v + c_t))] at
    [y_norm[i,j]].  Floats are read as real numbers. *)
Theorem warp_deriv_is_derivative (s : Warped.self R) (mode : bool)
    (y : ndarray R) :
  let s' := Warped.set_tanh Rtrigo_def.tanh Rtrigo_def.tanh s mode in
  let y_norm := util.normalize (util.y (Standard.norm (Warped.super s'))) y in
  let w := GPy.warping_function (Warped.gp s') in
  size y_norm <> 0 -> GPy.psi w <> [] ->
  exists G,
    Warped.warp_deriv s' y = Ok G /\
    shape0 G = shape0 y_norm /\ shape1 G = shape1 y_norm /\
    forall i j, i < shape0 y_norm -> j < shape1 y_norm ->
      item G i j = tanh_warp_deriv (GPy.d w) (GPy.psi w) (item y_norm i j) /\
      derivable_pt_lim (tanh_warp (GPy.d w) (GPy.psi w))
        (item y_norm i j) (item G i j).
Proof.
intros s' y_norm w Hy Hm. unfold Warped.warp_deriv. fold y_norm.
destruct (@_warp_deriv_spec s' y_norm Hy Hm) as (G & EG & S0 & S1 & HG).
exists G. split; [exact EG|]. split; [exact S0|]. split; [exact S1|].
intros i j Hi Hj.
assert (Et : Warped.tanh s' = Rtrigo_def.tanh) by (now destruct mode).
assert (E : item G i j =
            tanh_warp_deriv (GPy.d w) (GPy.psi w) (item y_norm i j)).
{ rewrite (HG i j Hi Hj), Et. reflexivity. }
split; [exact E|]. rewrite E. apply derivable_pt_lim_tanh_warp.
Qed.

(** ** Mean prediction *)

Section MeanFacts.
Context {T : Type} `{Scalar T}.

Lemma subtract_spec (A B : ndarray T) (r c : nat) :
  bdim (shape0 A) (shape0 B) = Some r ->
  bdim (shape1 A) (shape1 B) = Some c ->
  exists D,
    subtract A B = Ok D /\ shape0 D = r /\ shape1 D = c /\
    forall i j,
      item D i j =
      ssub (item A (bidx (shape0 A) i) (bidx (shape1 A) j))
           (item B (bidx (shape0 B) i) (bidx (shape1 B) j)).
Proof.
intros E0 E1. unfold subtract, broadcast2. rewrite E0, E1.
eexists. split; [reflexivity|]. simpl. auto.
Qed.

(** the steps of [Warped.predict_mu] when the shapes agree and the
    difference has an element: up to the loop over the difference *)
Lemma predict_mu_steps (o : layout) (s : Warped.self T) (x y : ndarray T)
    (cons : pyomo.ConstraintList T) (k : kernels.Kernel T) (r c : nat) :
  let st := Warped.super s in
  let x_norm := util.normalize (util.x (Standard.norm st)) x in
  let y_norm := util.normalize (util.y (Standard.norm st)) y in
  let K_x_X := kernels.calc k x_norm (Standard.X st) in
  Standard.kern st = Some k ->
  shape1 K_x_X = shape0 (Standard.woodbury_vector st) ->
  bdim (shape0 y_norm) (shape0 K_x_X) = Some r ->
  bdim (shape1 y_norm) (shape1 (Standard.woodbury_vector st)) = Some c ->
  0 < r -> 0 < c ->
  tanh_storable s (GPy.psi (GPy.warping_function (Warped.gp s))) y_norm ->
  exists z wy diff,
    matmul K_x_X (Standard.woodbury_vector st) = Ok z /\
    Warped.predict_mu_latent s x = Ok z /\
    shape0 z = shape0 K_x_X /\
    shape1 z = shape1 (Standard.woodbury_vector st) /\
    Warped.warp s y = Ok wy /\
    shape0 wy = shape0 y_norm /\ shape1 wy = shape1 y_norm /\
    (forall i j, i < shape0 y_norm -> j < shape1 y_norm ->
       item wy i j =
       loop_entry (Warped.tanh s)
         (GPy.psi (GPy.warping_function (Warped.gp s))) (item y_norm i j)
         (smul (GPy.d (GPy.warping_function (Warped.gp s)))
               (item y_norm i j))) /\
    subtract wy z = Ok diff /\
    shape0 diff = r /\ shape1 diff = c /\
    (forall i j,
       item diff i j =
       ssub (item wy (bidx (shape0 wy) i) (bidx (shape1 wy) j))
            (item z (bidx (shape0 z) i) (bidx (shape1 z) j))) /\
    Warped.predict_mu o s x y cons =
      (fst (Warped.add_each (in_memory_order o diff) cons),
       _ <- snd (Warped.add_each (in_memory_order o diff) cons) ;; Ok y).
Proof.
intros st x_norm y_norm K_x_X Hk Hmm Hr Hc Pr Pc Hs.
assert (Ez : Standard._predict_mu st x_norm =
             matmul K_x_X (Standard.woodbury_vector st)).
{ unfold Standard._predict_mu, Standard.get_kern. now rewrite Hk. }
assert (Em : exists z, matmul K_x_X (Standard.woodbury_vector st) = Ok z /\
                       shape0 z = shape0 K_x_X /\
                       shape1 z = shape1 (Standard.woodbury_vector st)).
{ unfold matmul. rewrite Hmm, Nat.eqb_refl. eexists. split; [reflexivity|].
  simpl. auto. }
destruct Em as (z & Em & Z0 & Z1).
assert (Hy : size y_norm <> 0).
{ unfold size. destruct (bdim_pos _ _ Hr Pr), (bdim_pos _ _ Hc Pc). nia. }
destruct (@_warp_spec _ _ s y_norm (or_introl Hy) Hs)
  as (wy & Ew & W0 & W1 & Hw).
destruct (@subtract_spec wy z r c) as (diff & Ed & D0 & D1 & Hd).
{ now rewrite W0, Z0. }
{ now rewrite W1, Z1. }
exists z, wy, diff.
repeat (split; [first [assumption | idtac]|]).
- unfold Warped.predict_mu_latent; fold st x_norm; now rewrite Ez.
- unfold Warped.predict_mu. fold st x_norm. rewrite Ez, Em. simpl.
  change (Warped.warp s y) with (Warped._warp s y_norm).
  rewrite Ew. simpl. rewrite Ed. simpl.
  rewrite nditer_elements by lia.
  now destruct (Warped.add_each (in_memory_order o diff) cons).
Qed.

End MeanFacts.

(** *** arrays of pyomo expressions *)

(** an operation on a pyomo expression builds an expression *)
Lemma sadd_expression (a b : expr) :
  is_expression a = true -> is_expression (sadd a b) = true.
Proof. destruct a; [discriminate | reflexivity ..]. Qed.

Lemma ssub_expression (a b : expr) :
  is_expression a = true -> is_expression (ssub a b) = true.
Proof. destruct a; [discriminate | reflexivity ..]. Qed.

Lemma smul_expression (a b : expr) :
  is_expression b = true -> is_expression (smul a b) = true.
Proof. destruct b; [discriminate | destruct a; reflexivity ..]. Qed.

Lemma pyomo_tanh_expression (a : expr) :
  is_expression a = true -> is_expression (pyomo_tanh a) = true.
Proof. destruct a; [discriminate | reflexivity ..]. Qed.

Lemma loop_entry_expression (th : expr -> expr)
    (mpsi : list (expr * expr * expr)) (v acc : expr) :
  is_expression acc = true ->
  is_expression (loop_entry th mpsi v acc) = true.
Proof.
revert acc. induction mpsi as [|[[a b] c] rest IH]; intros acc Ha;
  cbn [loop_entry]; [exact Ha|].
apply IH. now apply sadd_expression.
Qed.

(** on an array of pyomo expressions, pyomo's [tanh] returns
    expressions: they fit an array of objects *)
Lemma tanh_storable_expressions (s : Warped.self expr)
    (mpsi : list (expr * expr * expr)) (y : ndarray expr) :
  Warped.tanh s = pyomo_tanh ->
  0 < shape0 y -> 0 < shape1 y ->
  (forall i j, i < shape0 y -> j < shape1 y ->
     is_expression (item y i j) = true) ->
  tanh_storable s mpsi y.
Proof.
intros Et H0 H1 Hy a b c _. left. cbn [item np.map]. rewrite Et.
apply pyomo_tanh_expression, smul_expression, sadd_expression.
now apply Hy.
Qed.

(** C1. For a warped predictor built with pyomo's [tanh], a query point
    [x] and an array [y] of decision-variable expressions,
    [predict_mu(x, y, cons)] computes the latent mean [z] at the
    normalized [x], appends to the container exactly one constraint
    [warp(y) - z == 0] for every element of the broadcast difference, in
    the order in which the elements lie in memory and after the
    constraints already there, and returns [y] itself.  The kernel
    attribute must exist, the shapes must agree (the kernel matrix with
    the weight vector, the warped [y] with [z]), the difference must have
    an element and the elements of the normalized [y] must be pyomo
    expressions, not numbers. *)
Theorem predict_mu_couples (o : layout) (s : Warped.self expr)
    (numpy_tanh : expr -> expr) (x y : ndarray expr)
    (cons : pyomo.ConstraintList expr) (k : kernels.Kernel expr)
    (r c : nat) :
  let s' := Warped.set_tanh pyomo_tanh numpy_tanh s true in
  let st := Warped.super s' in
  let x_norm := util.normalize (util.x (Standard.norm st)) x in
  let y_norm := util.normalize (util.y (Standard.norm st)) y in
  let K_x_X := kernels.calc k x_norm (Standard.X st) in
  Standard.kern st = Some k ->
  shape1 K_x_X = shape0 (Standard.woodbury_vector st) ->
  bdim (shape0 y_norm) (shape0 K_x_X) = Some r ->
  bdim (shape1 y_norm) (shape1 (Standard.woodbury_vector st)) = Some c ->
  0 < r -> 0 < c ->
  (forall i j, i < shape0 y_norm -> j < shape1 y_norm ->
     is_expression (item y_norm i j) = true) ->
  exists z wy diff,
    matmul K_x_X (Standard.woodbury_vector st) = Ok z /\
    Warped.predict_mu_latent s' x = Ok z /\
    Warped.warp s' y = Ok wy /\
    shape0 diff = r /\ shape1 diff = c /\
    (forall i j,
       item diff i j =
       ssub (item wy (bidx (shape0 wy) i) (bidx (shape1 wy) j))
            (item z (bidx (shape0 z) i) (bidx (shape1 z) j))) /\
    Warped.predict_mu o s' x y cons =
      (cons ++ List.map (fun d => pyomo.EqualityExpression d s0)
                 (in_memory_order o diff),
       Ok y) /\
    List.length (in_memory_order o diff) = r * c.
Proof.
intros s' st x_norm y_norm K_x_X Hk Hmm Hr Hc Pr Pc He.
destruct (bdim_pos _ _ Hr Pr) as [Py0 _].
destruct (bdim_pos _ _ Hc Pc) as [Py1 _].
destruct (@predict_mu_steps expr _ o s' x y cons k r c Hk Hmm Hr Hc Pr Pc)
  as (z & wy & diff & Em & Ez & _ & _ & Ew & W0 & W1 & Hw & Ed & D0 & D1 & Hd
      & E).
{ now apply tanh_storable_expressions. }
fold st y_norm in W0, W1, Hw.
exists z, wy, diff.
split; [exact Em|]. split; [exact Ez|]. split; [exact Ew|].
split; [exact D0|]. split; [exact D1|]. split; [exact Hd|].
split.
- rewrite E, add_each_expressions; [reflexivity|].
  rewrite <- (map_id (in_memory_order o diff)).
  apply Forall_memory_order. intros i j Hi Hj.
  rewrite D0 in Hi. rewrite D1 in Hj.
  pose proof (@bdim_bidx_l _ _ _ _ Hr Hi) as Bi.
  pose proof (@bdim_bidx_l _ _ _ _ Hc Hj) as Bj.
  rewrite Hd. apply ssub_expression. rewrite W0, W1, (Hw _ _ Bi Bj).
  apply loop_entry_expression, smul_expression. now apply He.
- rewrite in_memory_order_length. now rewrite D0, D1.
Qed.

(** ** Covariance prediction *)

Section CovFacts.
Context {T : Type} `{Scalar T}.

Lemma _predict_cov_spec (s : Standard.self T) (x : ndarray T)
    (k : kernels.Kernel T) :
  let K_x_x := kernels.call k x x in
  let K_x_X := kernels.call k x (Standard.X s) in
  let W := Standard.woodbury_inv s in
  let n := shape0 (Standard.X s) in
  Standard.kern s = Some k ->
  well_shaped k ->
  square n W ->
  exists SIG,
    Standard._predict_cov s x = Ok SIG /\
    square (shape0 x) SIG /\
    forall i j, i < shape0 x -> j < shape0 x ->
      item SIG i j =
      sadd (ssub (item K_x_x i j)
                 (sum_n n (fun l =>
                    smul (sum_n n (fun q =>
                            smul (item K_x_X i q) (item W q l)))
                         (item K_x_X j l))))
           (if i =? j then Standard.likelihood_variance s else s0).
Proof.
intros K_x_x K_x_X W n Hk Hws [W0 W1].
destruct (Hws x x) as (_ & _ & A0 & A1).
destruct (Hws x (Standard.X s)) as (_ & _ & B0 & B1).
fold K_x_x in A0, A1. fold K_x_X in B0, B1. fold n in B1.
unfold Standard._predict_cov, Standard.get_kern. rewrite Hk.
cbn [bind]. fold K_x_x K_x_X W.
unfold matmul at 1. rewrite B1, W0, Nat.eqb_refl. cbn [bind].
unfold matmul. cbn [shape0 shape1 transpose]. rewrite W1, B1, Nat.eqb_refl.
cbn [bind]. unfold subtract, broadcast2. cbn [shape0 shape1].
rewrite A0, A1, B0. broadcasts. cbn [bind].
unfold iadd. cbn [shape0 shape1 diag repeat len]. broadcasts.
rewrite !Nat.eqb_refl.
cbn [andb]. eexists. split; [reflexivity|]. split; [split; reflexivity|].
intros i j Hi Hj. cbn [item vitem]. rewrite !(bidx_lt Hi), !(bidx_lt Hj).
reflexivity.
Qed.

(** C2 (as amended). For every query point set [x], [predict_cov(x)] first
    normalizes [x] with the input normalizer, then computes
    [K(x,x) - K(x,X) * Winv * K(x,X)^T] (the last factor is the transpose
    of [K(x,X)]), then adds the likelihood variance on the diagonal, and
    only then applies the inverse-variance un-scaling of the output
    normalizer to the matrix it returns. *)
Theorem predict_cov_order (s : Standard.self T) (x : ndarray T)
    (k : kernels.Kernel T) :
  let x_norm := util.normalize (util.x (Standard.norm s)) x in
  let K_x_x := kernels.call k x_norm x_norm in
  let K_x_X := kernels.call k x_norm (Standard.X s) in
  let W := Standard.woodbury_inv s in
  let n := shape0 (Standard.X s) in
  Standard.kern s = Some k ->
  well_shaped k ->
  square n W ->
  exists SIG,
    square (shape0 x_norm) SIG /\
    (forall i j, i < shape0 x_norm -> j < shape0 x_norm ->
       item SIG i j =
       sadd (ssub (item K_x_x i j)
                  (sum_n n (fun l =>
                     smul (sum_n n (fun q =>
                             smul (item K_x_X i q) (item W q l)))
                          (item (transpose K_x_X) l j))))
            (if i =? j then Standard.likelihood_variance s else s0)) /\
    Standard.predict_cov s x =
      Ok (util.inverse_variance (util.y (Standard.norm s)) SIG).
Proof.
intros x_norm K_x_x K_x_X W n Hk Hws HW.
destruct (_predict_cov_spec s x_norm Hk Hws HW) as (SIG & E & Hsq & Hit).
exists SIG. split; [exact Hsq|]. split; [exact Hit|].
unfold Standard.predict_cov. fold x_norm. now rewrite E.
Qed.

End CovFacts.

Section CovarianceBounds.
Open Scope R_scope.



End CovarianceBounds.

(** ** Inversion of the warp *)

Section InverseFacts.
Open Scope R_scope.

(** the objective of the root finder is the warp minus the target *)
Lemma objective_value (s : Warped.self R) (xi v : R) :
  Warped.tanh s = Rtrigo_def.tanh ->
  scipy.value_at (Warped.objective s xi) v
    (tanh_warp (GPy.d (GPy.warping_function (Warped.gp s)))
               (GPy.psi (GPy.warping_function (Warped.gp s))) v - xi).
Proof.
intros Et. unfold scipy.value_at, Warped.objective.
destruct (@_warp_spec_R s (array11 v) (or_introl (Nat.neq_succ_0 0)))
  as (z & Ez & S0 & S1 & Hz).
rewrite Ez. simpl. eexists. split; [reflexivity|]. simpl.
split; [exact S0|]. split; [exact S1|].
rewrite (Hz 0%nat 0%nat) by (simpl; lia).
rewrite loop_entry_R, Et. reflexivity.
Qed.

(** the reference root finder refuses a bracket without a sign change *)
Lemma bracketing_solver_checks (iterate : (R -> R) -> R -> R -> R) :
  scipy.checks_bracket (scipy.bracketing_solver iterate).
Proof.
intros f a b fa fb (A & EA & _ & _ & HA) (B & EB & _ & _ & HB) Hs.
unfold scipy.bracketing_solver. rewrite EA, EB. simpl.
rewrite HA, HB. destruct (Rlt_dec 0 (fa * fb)); [reflexivity | contradiction].
Qed.

(** C4 (as amended). When the bracket handed to the root finder shows no
    sign change of [warp(y) - xi], [warp_inv_scalar] fails with the
    built-in [RuntimeError] carrying the message [Failed to find root]; the
    same error value is raised for every other exception inside the root
    finder, whatever the target and bracket, so the failure to bracket a
    root cannot be told apart by its type. *)
Theorem warp_inv_scalar_failure
    (root_scalar : (R -> result (ndarray R)) -> R * R -> result R)
    (s : Warped.self R) (xi : R) (bracket : R * R) (fa fb : R) :
  let ny := util.y (Standard.norm (Warped.super s)) in
  let nb := util.normalize ny (array12 (fst bracket) (snd bracket)) in
  scipy.checks_bracket root_scalar ->
  scipy.value_at (Warped.objective s xi) (item nb 0 0) fa ->
  scipy.value_at (Warped.objective s xi) (item nb 0 1) fb ->
  0 < fa * fb ->
  Warped.warp_inv_scalar root_scalar s xi bracket =
    Raise (RuntimeError "Failed to find root") /\
  exn_class (RuntimeError "Failed to find root") = "RuntimeError"%string /\
  forall xi' bracket' e,
    root_scalar (Warped.objective s xi') bracket' = Raise e ->
    Warped._warp_inv_scalar root_scalar s xi' bracket' =
      Raise (RuntimeError "Failed to find root").
Proof.
intros ny nb Hcheck Ha Hb Hsign. split; [|split; [reflexivity|]].
- unfold Warped.warp_inv_scalar, Warped._warp_inv_scalar. fold ny nb.
  now rewrite (Hcheck _ _ _ _ _ Ha Hb Hsign).
- intros xi' bracket' e E. unfold Warped._warp_inv_scalar. now rewrite E.
Qed.

(** the objective returns an array, of shape (1, 1), wherever it is
    evaluated *)
Lemma objective_returns_array (s : Warped.self R) (xi v : R) :
  exists A, Warped.objective s xi v = Ok A /\
            shape0 A = 1%nat /\ shape1 A = 1%nat.
Proof.
unfold Warped.objective.
destruct (@_warp_spec_R s (array11 v) (or_introl (Nat.neq_succ_0 0)))
  as (z & Ez & S0 & S1 & _).
rewrite Ez. simpl. eexists. split; [reflexivity|]. simpl. auto.
Qed.

(** the reference root finder that cannot convert an array refuses every
    objective that returns one *)
Lemma array_refusing_solver_refuses :
  scipy.refuses_arrays scipy.array_refusing_solver.
Proof.
intros f a b A E. exists scipy.array_conversion_error.
unfold scipy.array_refusing_solver. simpl. now rewrite E.
Qed.

(** C7. The round trip fails: the objective handed to the root finder
    returns an array of shape (1, 1), [self._warp(np.array([[y]])) - xi],
    and not a float.  With a root finder that cannot convert such an
    array to a C double, as [scipy.optimize.root_scalar] under a NumPy
    that refuses the conversion, [warp_inv_scalar] raises
    [RuntimeError] for every target and every bracket, in particular for
    the target [warp(y)] and a bracket that contains [y]: the warp
    followed by its bracketed inverse is not the identity. *)
Theorem warp_inv_scalar_never_returns
    (root_scalar : (R -> result (ndarray R)) -> R * R -> result R)
    (s : Warped.self R) (mode : bool) :
  let s' := Warped.set_tanh Rtrigo_def.tanh Rtrigo_def.tanh s mode in
  scipy.refuses_arrays root_scalar ->
  (forall (xi : R) (bracket : R * R),
     Warped._warp_inv_scalar root_scalar s' xi bracket =
       Raise (RuntimeError "Failed to find root") /\
     Warped.warp_inv_scalar root_scalar s' xi bracket =
       Raise (RuntimeError "Failed to find root")) /\
  (forall (y wy : ndarray R) (i j : nat) (bracket : R * R),
     Warped.warp s' y = Ok wy ->
     Warped.warp_inv_scalar root_scalar s' (item wy i j) bracket =
       Raise (RuntimeError "Failed to find root")).
Proof.
intros s' Hrs.
assert (Hraise : forall xi br,
          Warped._warp_inv_scalar root_scalar s' xi br =
            Raise (RuntimeError "Failed to find root")).
{ intros xi [a b]. unfold Warped._warp_inv_scalar.
  destruct (objective_returns_array s' xi a) as (A & EA & _).
  destruct (Hrs _ a b A EA) as (e & Ee). now rewrite Ee. }
assert (Hall : forall xi br,
          Warped.warp_inv_scalar root_scalar s' xi br =
            Raise (RuntimeError "Failed to find root")).
{ intros xi br. unfold Warped.warp_inv_scalar. now rewrite Hraise. }
split.
- intros xi bracket. split; [apply Hraise | apply Hall].
- intros y wy i j bracket _. apply Hall.
Qed.

End InverseFacts.

(** ** Construction, frame and fallback *)

Section Construction.
Context {T : Type} `{Scalar T}.
Variables (p_tanh util_numpy_tanh : T -> T).

(** X19. When a [Standard] or a [Warped] predictor is built with a kernel
    name that the registry defines but whose constructor raises
    [NotImplementedError], construction does not raise: it prints one
    message and continues; the instance has no kernel attribute, while the
    likelihood variance, the training inputs and [N] (and the posterior
    quantities) are set. *)
Theorem init_not_implemented (km : kernels.module T)
    (g : GPy.GPRegression T) (wf : GPy.WarpingFunction T) (kern : string)
    (norm : util.Normalizer T) (mode : bool)
    (ctor : T -> T -> result (kernels.Kernel T)) (e : exn) :
  km kern = Some ctor ->
  ctor (GPy.kern_lengthscale_0 g) (GPy.kern_variance_0 g) = Raise e ->
  exn_class e = "NotImplementedError"%string ->
  exists st w,
    Standard.__init__ km g kern norm =
      ([Standard.not_implemented_message kern], Ok st) /\
    Warped.__init__ p_tanh util_numpy_tanh km
        {| GPy.base := g; GPy.warping_function := wf |} kern norm mode =
      ([Standard.not_implemented_message kern], Ok w) /\
    Warped.super w = st /\
    Standard.kern st = None /\
    Standard.likelihood_variance st = GPy.likelihood_variance_0 g /\
    Standard.X st = GPy._predictive_variable g /\
    Standard.N st = shape0 (GPy._predictive_variable g) /\
    Standard.woodbury_vector st = GPy.posterior_woodbury_vector g /\
    Standard.woodbury_inv st = GPy.posterior_woodbury_inv g.
Proof.
intros Hkm Hctor Hclass.
assert (E : exists st,
  Standard.__init__ km g kern norm =
    ([Standard.not_implemented_message kern], Ok st) /\
  Standard.kern st = None /\
  Standard.likelihood_variance st = GPy.likelihood_variance_0 g /\
  Standard.X st = GPy._predictive_variable g /\
  Standard.N st = shape0 (GPy._predictive_variable g) /\
  Standard.woodbury_vector st = GPy.posterior_woodbury_vector g /\
  Standard.woodbury_inv st = GPy.posterior_woodbury_inv g).
{ unfold Standard.__init__, kernels.getattr. rewrite Hkm. simpl.
  rewrite Hctor, Hclass. simpl. eexists. split; [reflexivity|].
  simpl. repeat split. }
destruct E as (st & Est & Hst).
exists st.
exists (Warped.set_tanh p_tanh util_numpy_tanh
          {| Warped.super := st;
             Warped.gp := {| GPy.base := g; GPy.warping_function := wf |};
             Warped.tanh := fun v => v |} mode).
split; [exact Est|]. split.
- unfold Warped.__init__. simpl. rewrite Est. reflexivity.
- split; [now destruct mode | exact Hst].
Qed.

(** an instance without kernel attribute cannot predict *)
Lemma predict_without_kernel (st : Standard.self T) (x : ndarray T) :
  Standard.kern st = None ->
  fst (Standard.predict_mu st x None None) =
    Raise (AttributeError "object has no attribute 'kern'") /\
  Standard.predict_cov st x =
    Raise (AttributeError "object has no attribute 'kern'").
Proof.
intros Hk. unfold Standard.predict_mu, Standard.predict_cov,
  Standard._predict_mu, Standard._predict_cov, Standard.get_kern.
rewrite Hk. split; reflexivity.
Qed.

(** C10. [Standard.predict_mu] takes the optional arguments [z] and [cons]
    and uses neither: for every [x] the value returned is the same for
    every choice of them, [None] included, and the constraint container is
    after the call what it was before. *)
Theorem standard_predict_mu_frame (st : Standard.self T) (x : ndarray T)
    (z z' : option (ndarray T))
    (cons cons' : option (pyomo.ConstraintList T)) :
  fst (Standard.predict_mu st x z cons) =
    fst (Standard.predict_mu st x z' cons') /\
  fst (Standard.predict_mu st x z cons) =
    fst (Standard.predict_mu st x None None) /\
  snd (Standard.predict_mu st x z cons) = cons.
Proof. unfold Standard.predict_mu. simpl. auto. Qed.

(** C9. For every query point set [x], [Warped.predict_cov(x)] issues one
    warning and returns what [predict_cov_latent(x)] returns, a matrix or
    the same exception.  The warp has no part in it: the result depends on
    the [Standard] part of the instance only, and it is an exception
    exactly when [Standard.predict_cov] raises that exception on the same
    instance. *)
Theorem warped_predict_cov_fallback (s s' : Warped.self T) (x : ndarray T) :
  fst (Warped.predict_cov s x) = [Warped.predict_cov_warning] /\
  snd (Warped.predict_cov s x) = Warped.predict_cov_latent s x /\
  (Warped.super s' = Warped.super s ->
   snd (Warped.predict_cov s' x) = snd (Warped.predict_cov s x)) /\
  (forall e, snd (Warped.predict_cov s x) = Raise e <->
             Standard.predict_cov (Warped.super s) x = Raise e).
Proof.
split; [reflexivity|]. split; [reflexivity|]. split.
- intros E. unfold Warped.predict_cov, Warped.predict_cov_latent. simpl.
  now rewrite E.
- intros e. unfold Warped.predict_cov, Warped.predict_cov_latent,
    Standard.predict_cov. simpl.
  destruct (Standard._predict_cov (Warped.super s) _); simpl;
    split; intros E; solve [discriminate | exact E].
Qed.

End Construction.

(** ** The theorems at the example models *)

(** the symbolic predictor at two query points, a column of two decision
    variables: the container receives two constraints *)
Lemma predict_mu_couples_symbolic :
  exists cons,
    Warped.predict_mu C_order symbolic_warped
      (of_rows 1 [[Num 0]; [Num 1]]) (of_rows 1 [[Var 0]; [Var 1]]) [] =
      (cons, Ok (of_rows 1 [[Var 0]; [Var 1]])) /\
    List.length cons = 2.
Proof.
destruct (@predict_mu_couples C_order symbolic_warped pyomo_tanh
            (of_rows 1 [[Num 0]; [Num 1]]) (of_rows 1 [[Var 0]; [Var 1]])
            [] constant_kernel 2 1
            eq_refl eq_refl eq_refl eq_refl Nat.lt_0_2 Nat.lt_0_1)
  as (z & wy & diff & _ & _ & _ & _ & _ & _ & E & L).
- intros i j Hi Hj. simpl in Hi, Hj.
  destruct i as [|[|i]]; [| |lia]; (destruct j as [|j]; [reflexivity | lia]).
- exists ([] ++ List.map (fun d => pyomo.EqualityExpression d s0)
                  (in_memory_order C_order diff)).
  split; [exact E|]. rewrite app_nil_l, length_map. exact L.
Defined.

(** the warp [y + tanh(y)] of a column of two floats *)
Lemma warp_is_tanh_warp_example :
  exists z,
    Warped.warp example_warped (of_rows 1 [[0]; [1]]%R) = Ok z /\
    shape0 z = 2 /\ shape1 z = 1 /\
    item z 1 0 = (1 + Rtrigo_def.tanh 1)%R.
Proof.
destruct (@warp_is_tanh_warp example_warped true (of_rows 1 [[0]; [1]]%R))
  as (z & E & S0 & S1 & Hz).
- left. discriminate.
- exists z. split; [exact E|]. split; [exact S0|]. split; [exact S1|].
  rewrite (Hz 1 0) by (simpl; lia). unfold tanh_warp. simpl.
  replace (1 * (1 + 0))%R with 1%R by ring. ring.
Defined.

(** the slope of [y + tanh(y)] at 0 is 2 *)
Lemma warp_deriv_is_derivative_example :
  exists G,
    Warped.warp_deriv example_warped (array11 0%R) = Ok G /\
    item G 0 0 = 2%R /\
    derivable_pt_lim (tanh_warp 1 [(1, 1, 0)%R]) 0%R 2%R.
Proof.
destruct (@warp_deriv_is_derivative example_warped true (array11 0%R))
  as (G & E & _ & _ & HG).
- discriminate.
- discriminate.
- destruct (HG 0 0) as (Hv & Hd); [simpl; lia | simpl; lia |].
  assert (E2 : item G 0 0 = 2%R).
  { rewrite Hv. unfold tanh_warp_deriv. simpl.
    replace (1 * (0 + 0))%R with 0%R by ring. rewrite tanh_0. ring. }
  exists G. split; [exact E|]. split; [exact E2|].
  rewrite <- E2. exact Hd.
Defined.

Lemma RBF_well_shaped (l v : R) : well_shaped (RBF l v).
Proof. intros a b. simpl. auto. Qed.


(** one query point against the two training points: the covariance is a
    1 x 1 matrix, computed in the order the theorem states *)
Lemma predict_cov_order_example :
  exists C,
    Standard.predict_cov example_standard (array11 0%R) = Ok C /\
    shape0 C = 1 /\ shape1 C = 1.
Proof.
destruct (@predict_cov_order R _ example_standard (array11 0%R) (RBF 1 1)
            eq_refl (RBF_well_shaped 1 1) (conj eq_refl eq_refl))
  as (SIG & [S0 S1] & _ & E).
exists (util.inverse_variance (util.y (Standard.norm example_standard)) SIG).
split; [exact E|]. simpl. split; [exact S0 | exact S1].
Defined.

(** with one query point and two training points the product written with
    [K(X,x)] transposed is not even defined: [K(x,X) * Winv] is 1 x 2 and
    the transpose of [K(X,x)] is 1 x 2 as well, while the code multiplies
    by the transpose of [K(x,X)] and returns a 1 x 1 matrix.  With two
    query points 1 and 0 against the training points 1 and 1 under the
    linear kernel both products are defined and differ: the code returns
    the variance 0 for the first point, the formula as written gives 1. *)
Lemma predict_cov_not_as_written :
  ((exists C, Standard.predict_cov example_standard (array11 0%R) = Ok C) /\
   predict_cov_as_written example_standard (array11 0%R) =
     Raise (ValueError "matmul: mismatch in its core dimension") /\
   Standard.predict_cov example_standard (array11 0%R) <>
     predict_cov_as_written example_standard (array11 0%R)) /\
  (exists C C',
     Standard.predict_cov linear_standard (of_rows 1 [[1]; [0]]%R) = Ok C /\
     predict_cov_as_written linear_standard (of_rows 1 [[1]; [0]]%R) =
       Ok C' /\
     item C 0 0 = 0%R /\ item C' 0 0 = 1%R).
Proof.
split.
- assert (E : exists C,
    Standard.predict_cov example_standard (array11 0%R) = Ok C).
  { eexists. reflexivity. }
  assert (F : predict_cov_as_written example_standard (array11 0%R) =
              Raise (ValueError "matmul: mismatch in its core dimension")).
  { reflexivity. }
  split; [exact E|]. split; [exact F|].
  destruct E as (C & E). rewrite E, F. discriminate.
- eexists. eexists. split; [reflexivity|]. split; [reflexivity|].
  simpl. split; lra.
Qed.

(** the registry defines [Matern32], whose constructor is a stub: the
    message is printed and the instance comes without kernel *)
Lemma init_not_implemented_example :
  exists st,
    Standard.__init__ kernels_module example_gp "Matern32" (identity_norm R) =
      (["Kernel Matern32 is not implemented"%string], Ok st) /\
    Standard.kern st = None /\
    Standard.N st = 2.
Proof.
destruct (init_not_implemented Rtrigo_def.tanh Rtrigo_def.tanh
            kernels_module example_gp example_warping "Matern32"
            (identity_norm R) true (ctor := stub_kernel)
            eq_refl eq_refl eq_refl)
  as (st & w & E & _ & _ & Hk & _ & _ & HN & _).
exists st. split; [exact E|]. split; [exact Hk | exact HN].
Defined.

(** C3. Construction with a kernel name that has no implementation in the
    registry does raise: for the name [Periodic], which the registry does
    not define, [getattr] raises [AttributeError], which the
    [except NotImplementedError] clause does not catch; nothing is printed
    and no instance, partially constructed or not, is returned, by
    [Standard] and by [Warped] alike. *)
Theorem init_unknown_kernel_raises :
  kernels_module "Periodic"%string = None /\
  Standard.__init__ kernels_module example_gp "Periodic" (identity_norm R) =
    ([],
     Raise (AttributeError
              "module 'rogp.kernels' has no attribute 'Periodic'")) /\
  Warped.__init__ Rtrigo_def.tanh Rtrigo_def.tanh kernels_module
      {| GPy.base := example_gp; GPy.warping_function := example_warping |}
      "Periodic" (identity_norm R) true =
    ([],
     Raise (AttributeError
              "module 'rogp.kernels' has no attribute 'Periodic'")).
Proof. repeat split. Qed.

(** the registered kernel: the constructor neither prints nor raises *)
Lemma init_RBF :
  Standard.__init__ kernels_module example_gp "RBF" (identity_norm R) =
    ([], Ok example_standard).
Proof. reflexivity. Qed.

Lemma tanh_bounds (x : R) : (-1 < Rtrigo_def.tanh x < 1)%R.
Proof.
pose proof (cosh_pos x) as Hc.
assert (Hm : (sinh x < cosh x)%R).
{ unfold sinh, cosh. pose proof (exp_pos (- x)). lra. }
assert (Hp : (- cosh x < sinh x)%R).
{ unfold sinh, cosh. pose proof (exp_pos x). lra. }
unfold Rtrigo_def.tanh. split.
- apply Rmult_lt_reg_r with (cosh x); [exact Hc|].
  unfold Rdiv. rewrite Rmult_assoc, Rinv_l by lra. lra.
- apply Rmult_lt_reg_r with (cosh x); [exact Hc|].
  unfold Rdiv. rewrite Rmult_assoc, Rinv_l by lra. lra.
Qed.

(** the target 10 is not reached by [y + tanh(y)] between -1 and 1 *)
Lemma example_no_sign_change :
  exists fa fb,
    scipy.value_at (Warped.objective example_warped 10) (-1) fa /\
    scipy.value_at (Warped.objective example_warped 10) 1 fb /\
    (0 < fa * fb)%R.
Proof.
eexists. eexists.
split; [exact (objective_value example_warped 10 (-1) eq_refl)|].
split; [exact (objective_value example_warped 10 1 eq_refl)|].
unfold tanh_warp. simpl.
pose proof (tanh_bounds (1 * (-1 + 0))) as B1.
pose proof (tanh_bounds (1 * (1 + 0))) as B2.
nra.
Defined.

Lemma warp_inv_scalar_failure_example :
  Warped.warp_inv_scalar (scipy.bracketing_solver (fun _ a _ => a))
    example_warped 10 (-1, 1)%R =
  Raise (RuntimeError "Failed to find root").
Proof.
destruct example_no_sign_change as (fa & fb & Va & Vb & Hs).
exact (proj1 (@warp_inv_scalar_failure
                (scipy.bracketing_solver (fun _ a _ => a))
                example_warped 10%R (-1, 1)%R fa fb
                (bracketing_solver_checks (fun _ a _ => a)) Va Vb Hs)).
Defined.

(** no sign change over the bracket: the error that leaves
    [warp_inv_scalar] is a [RuntimeError], not an error type of its own,
    and a root finder failing for any other reason leads to the very same
    error *)
Lemma warp_inv_scalar_error_is_generic :
  (exists fa fb,
     scipy.value_at (Warped.objective example_warped 10) (-1) fa /\
     scipy.value_at (Warped.objective example_warped 10) 1 fb /\
     (0 < fa * fb)%R) /\
  (exists e,
     Warped.warp_inv_scalar (scipy.bracketing_solver (fun _ a _ => a))
       example_warped 10 (-1, 1)%R = Raise e /\
     exn_class e = "RuntimeError"%string /\
     exn_class e <> "RootNotFoundError"%string /\
     Warped.warp_inv_scalar
       (fun _ _ => Raise (mk_exn "TypeError" "must be real number"))
       example_warped 10 (-1, 1)%R = Raise e).
Proof.
split; [exact example_no_sign_change|].
exists (RuntimeError "Failed to find root").
split.
- destruct example_no_sign_change as (fa & fb & Va & Vb & Hs).
  unfold Warped.warp_inv_scalar, Warped._warp_inv_scalar.
  cbn [fst snd util.y util.normalize Standard.norm Warped.super
       example_warped example_standard identity_norm util.IdentityNorm
       item array12].
  now rewrite (@bracketing_solver_checks (fun _ a _ => a) _ _ _ _ _ Va Vb Hs).
- split; [reflexivity|]. split; [discriminate | reflexivity].
Qed.

Lemma example_monotone : monotone_parameters example_warping.
Proof.
split; simpl; [lra|]. constructor; [lra | constructor].
Defined.

(** [y + tanh(y)] at 0, inverted over the bracket (-1, 1), which holds
    the root 0: the root finder is handed an objective that returns an
    array and the call ends in [RuntimeError] *)
Lemma warp_inv_scalar_never_returns_example :
  exists wy,
    Warped.warp example_warped (array11 0%R) = Ok wy /\
    item wy 0 0 = tanh_warp 1 [(1, 1, 0)%R] 0 /\
    Warped.warp_inv_scalar scipy.array_refusing_solver example_warped
      (item wy 0 0) (-1, 1)%R =
    Raise (RuntimeError "Failed to find root").
Proof.
destruct (@warp_inv_scalar_never_returns scipy.array_refusing_solver
            example_warped true array_refusing_solver_refuses) as [_ Hw].
eexists. split; [reflexivity|]. split.
- unfold tanh_warp. simpl. ring.
- apply (Hw (array11 0%R) _ 0%nat 0%nat (-1, 1)%R). reflexivity.
Defined.











(** * Further properties of the code *)

(** ** Construction and dispatch *)

Section ConstructionMore.
Context {T : Type} `{Scalar T}.
Variables (p_tanh util_numpy_tanh : T -> T).

(** X1. A kernel name that the [kernels] module does not define makes every
    way of building a predictor raise [AttributeError] naming the kernel;
    nothing is printed. *)
Theorem unknown_kernel_raises (km : kernels.module T)
    (g : GPy.GPRegression T) (wgp : GPy.WarpedGP T) (kern : string)
    (norm : util.Normalizer T) (mode : bool) (kwargs : option bool) :
  km kern = None ->
  let e := AttributeError
             ("module 'rogp.kernels' has no attribute '" ++ kern ++ "'") in
  Standard.__init__ km g kern norm = ([], Raise e) /\
  Warped.__init__ p_tanh util_numpy_tanh km wgp kern norm mode =
    ([], Raise e) /\
  from_gpy p_tanh util_numpy_tanh km (inl g) kern norm None =
    ([], Raise e) /\
  from_gpy p_tanh util_numpy_tanh km (inr wgp) kern norm kwargs =
    ([], Raise e).
Proof.
intros Hkm e.
assert (E : forall g', Standard.__init__ km g' kern norm = ([], Raise e)).
{ intros g'. unfold Standard.__init__, kernels.getattr. rewrite Hkm.
  reflexivity. }
assert (W : forall m,
  Warped.__init__ p_tanh util_numpy_tanh km wgp kern norm m = ([], Raise e)).
{ intros m. unfold Warped.__init__. rewrite E. reflexivity. }
splits.
- apply E.
- apply W.
- unfold from_gpy. rewrite E. reflexivity.
- unfold from_gpy. rewrite W. reflexivity.
Qed.

(** X2. An exception of the kernel constructor that is not a
    [NotImplementedError] leaves the constructors as it is, and nothing is
    printed. *)
Theorem constructor_exception_propagates (km : kernels.module T)
    (g : GPy.GPRegression T) (wf : GPy.WarpingFunction T) (kern : string)
    (norm : util.Normalizer T) (mode : bool)
    (ctor : T -> T -> result (kernels.Kernel T)) (e : exn) :
  km kern = Some ctor ->
  ctor (GPy.kern_lengthscale_0 g) (GPy.kern_variance_0 g) = Raise e ->
  exn_class e <> "NotImplementedError"%string ->
  Standard.__init__ km g kern norm = ([], Raise e) /\
  Warped.__init__ p_tanh util_numpy_tanh km
      {| GPy.base := g; GPy.warping_function := wf |} kern norm mode =
    ([], Raise e).
Proof.
intros Hkm Hctor Hclass.
assert (E : Standard.__init__ km g kern norm = ([], Raise e)).
{ unfold Standard.__init__, kernels.getattr. rewrite Hkm. simpl.
  rewrite Hctor. apply String.eqb_neq in Hclass. now rewrite Hclass. }
split; [exact E|]. unfold Warped.__init__. simpl. now rewrite E.
Qed.

(** X3. Whenever [Standard(gp, kern, norm)] returns an instance, [N] is the
    number of training points, the posterior quantities, the likelihood
    variance and the normalizer are those handed in, and the instance
    lacks its kernel exactly when the message was printed: otherwise the
    kernel is the one the registered constructor returned and nothing was
    printed. *)
Theorem init_postcondition (km : kernels.module T)
    (g : GPy.GPRegression T) (kern : string) (norm : util.Normalizer T)
    (out : list string) (st : Standard.self T) :
  Standard.__init__ km g kern norm = (out, Ok st) ->
  Standard.N st = shape0 (Standard.X st) /\
  Standard.X st = GPy._predictive_variable g /\
  Standard.woodbury_vector st = GPy.posterior_woodbury_vector g /\
  Standard.woodbury_inv st = GPy.posterior_woodbury_inv g /\
  Standard.likelihood_variance st = GPy.likelihood_variance_0 g /\
  Standard.norm st = norm /\
  ((Standard.kern st = None /\
    out = [Standard.not_implemented_message kern]) \/
   (exists ctor k,
      km kern = Some ctor /\
      ctor (GPy.kern_lengthscale_0 g) (GPy.kern_variance_0 g) = Ok k /\
      Standard.kern st = Some k /\ out = [])).
Proof.
unfold Standard.__init__, kernels.getattr.
destruct (km kern) as [ctor|] eqn:Hkm; simpl.
- destruct (ctor (GPy.kern_lengthscale_0 g) (GPy.kern_variance_0 g))
    as [k|e] eqn:Hctor.
  + intros E. injection E as <- <-. simpl. splits; try reflexivity.
    right. exists ctor, k. auto.
  + destruct (String.eqb (exn_class e) "NotImplementedError").
    * intros E. injection E as <- <-. simpl. splits; try reflexivity.
      left. auto.
    * discriminate.
- discriminate.
Qed.

(** X4. [from_gpy] selects the class by the presence of a warping function and
    nothing else: for a model without one it returns what [Standard(...)]
    returns and accepts no [tanh] keyword (a [TypeError], whatever the
    kernel name); for a model with one it returns a [Warped] predictor
    whose [Standard] part is what [Standard(...)] builds from the same
    model, with pyomo's [tanh] unless the keyword says otherwise. *)
Theorem from_gpy_dispatch (km : kernels.module T)
    (g : GPy.GPRegression T) (wgp : GPy.WarpedGP T) (kern : string)
    (norm : util.Normalizer T) (kwargs : option bool) (b : bool) :
  from_gpy p_tanh util_numpy_tanh km (inl g) kern norm None =
    (fst (Standard.__init__ km g kern norm),
     st <- snd (Standard.__init__ km g kern norm) ;; Ok (inl st)) /\
  from_gpy p_tanh util_numpy_tanh km (inl g) kern norm (Some b) =
    ([], Raise (mk_exn "TypeError"
                  "__init__() got an unexpected keyword argument 'tanh'")) /\
  from_gpy p_tanh util_numpy_tanh km (inr wgp) kern norm kwargs =
    (fst (Standard.__init__ km (GPy.base wgp) kern norm),
     st <- snd (Standard.__init__ km (GPy.base wgp) kern norm) ;;
     Ok (inr {| Warped.super := st;
                Warped.gp := wgp;
                Warped.tanh :=
                  match kwargs with
                  | Some false => util_numpy_tanh
                  | _ => p_tanh
                  end |})).
Proof.
splits.
- unfold from_gpy. now destruct (Standard.__init__ km g kern norm).
- reflexivity.
- unfold from_gpy, Warped.__init__.
  destruct (Standard.__init__ km (GPy.base wgp) kern norm) as [out [st|e]];
    simpl; [|reflexivity].
  now destruct kwargs as [[|]|].
Qed.

(** X5. An instance without kernel attribute cannot predict: every prediction
    method of [Standard] and of [Warped] raises [AttributeError],
    [Warped.predict_mu] and [Warped.predict] leaving the constraint
    container as it was, and [Warped.predict_cov] still issues its warning
    first. *)
Theorem predictions_need_kernel (o : layout) (s : Warped.self T)
    (x y : ndarray T) (cons : pyomo.ConstraintList T) :
  Standard.kern (Warped.super s) = None ->
  let st := Warped.super s in
  let e := AttributeError "object has no attribute 'kern'" in
  fst (Standard.predict_mu st x None None) = Raise e /\
  Standard.predict_cov st x = Raise e /\
  Standard.predict st x = Raise e /\
  Warped.predict_mu o s x y cons = (cons, Raise e) /\
  Warped.predict o s x y cons = (cons, Raise e) /\
  Warped.predict_mu_latent s x = Raise e /\
  Warped.predict_cov_latent s x = Raise e /\
  Warped.predict_latent s x = Raise e /\
  Warped.predict_cov s x = ([Warped.predict_cov_warning], Raise e).
Proof.
intros Hk st e.
unfold Warped.predict, Warped.predict_cov, Warped.predict_latent,
  Warped.predict_mu, Warped.predict_mu_latent, Warped.predict_cov_latent,
  Standard.predict, Standard.predict_mu, Standard.predict_cov,
  Standard._predict_mu, Standard._predict_cov, Standard.get_kern.
subst st. simpl. rewrite Hk. simpl. splits; reflexivity.
Qed.

End ConstructionMore.

(** ** Shapes and composition of the predictions *)

Section PredictionMore.
Context {T : Type} `{Scalar T}.

(** X6. With a kernel that returns one column per training point,
    [Standard.predict_mu] returns exactly when the weight vector has one
    row per training point: then the mean is the un-scaled product of the
    kernel matrix at the normalized [x] with the weights, one row per query
    point; otherwise numpy's [ValueError] leaves the call. *)
Theorem predict_mu_shapes (s : Standard.self T) (x : ndarray T)
    (k : kernels.Kernel T) :
  let x_norm := util.normalize (util.x (Standard.norm s)) x in
  let K_x_X := kernels.calc k x_norm (Standard.X s) in
  let w := Standard.woodbury_vector s in
  Standard.kern s = Some k ->
  well_shaped k ->
  (shape0 w = shape0 (Standard.X s) ->
   exists mu,
     fst (Standard.predict_mu s x None None) =
       Ok (util.inverse_mean (util.y (Standard.norm s)) mu) /\
     shape0 mu = shape0 x_norm /\ shape1 mu = shape1 w /\
     forall i j,
       item mu i j =
       sum_n (shape0 (Standard.X s))
         (fun q => smul (item K_x_X i q) (item w q j))) /\
  (shape0 w <> shape0 (Standard.X s) ->
   fst (Standard.predict_mu s x None None) =
     Raise (ValueError "matmul: mismatch in its core dimension")).
Proof.
intros x_norm K_x_X w Hk Hws.
destruct (Hws x_norm (Standard.X s)) as (K0 & K1 & _ & _).
fold K_x_X in K0, K1.
unfold Standard.predict_mu, Standard._predict_mu, Standard.get_kern.
rewrite Hk. cbn [bind fst]. fold x_norm K_x_X w. unfold matmul. rewrite K1.
split; intros Hw.
- rewrite <- Hw, Nat.eqb_refl. cbn [bind]. eexists. split; [reflexivity|].
  cbn [shape0 shape1 item]. rewrite K0. auto.
- apply not_eq_sym in Hw. apply Nat.eqb_neq in Hw. now rewrite Hw.
Qed.

(** X7. With a kernel that returns one row per query point and one column per
    training point, [Standard.predict_cov] returns a matrix exactly when
    the posterior inverse-covariance matrix is N x N for the N training
    points. *)
Theorem predict_cov_returns_iff (s : Standard.self T) (x : ndarray T)
    (k : kernels.Kernel T) :
  Standard.kern s = Some k ->
  well_shaped k ->
  ((exists C, Standard.predict_cov s x = Ok C) <->
   square (shape0 (Standard.X s)) (Standard.woodbury_inv s)).
Proof.
intros Hk Hws.
set (x_norm := util.normalize (util.x (Standard.norm s)) x).
split.
- intros (C & E). revert E.
  destruct (Hws x_norm (Standard.X s)) as (_ & _ & B0 & B1).
  unfold Standard.predict_cov, Standard._predict_cov, Standard.get_kern.
  fold x_norm. rewrite Hk. cbn [bind]. unfold matmul at 1. rewrite B1.
  destruct (shape0 (Standard.X s) =? shape0 (Standard.woodbury_inv s))
    eqn:E0; [|discriminate].
  cbn [bind]. unfold matmul. cbn [shape0 shape1 transpose]. rewrite B1.
  destruct (shape1 (Standard.woodbury_inv s) =? shape0 (Standard.X s))
    eqn:E1; [|discriminate].
  intros _. apply Nat.eqb_eq in E0, E1. split; congruence.
- intros HW.
  destruct (_predict_cov_spec s x_norm Hk Hws HW) as (SIG & E & _).
  eexists. unfold Standard.predict_cov. fold x_norm. rewrite E. reflexivity.
Qed.

(** X8. [Standard.predict] is [Warped.predict_latent] followed by the
    un-scaling of the output normalizer: the mean through [inverse_mean],
    the covariance through [inverse_variance]; an exception of the latent
    prediction is the exception of [predict]. *)
Theorem predict_unscales_latent (s : Warped.self T) (x : ndarray T) :
  let ny := util.y (Standard.norm (Warped.super s)) in
  Standard.predict (Warped.super s) x =
    (p <- Warped.predict_latent s x ;;
     Ok (util.inverse_mean ny (fst p), util.inverse_variance ny (snd p))).
Proof.
intros ny.
unfold Standard.predict, Warped.predict_latent, Warped.predict_mu_latent,
  Warped.predict_cov_latent, Standard.predict_mu, Standard.predict_cov.
simpl. fold ny.
destruct (Standard._predict_mu (Warped.super s) _) as [mu|e]; simpl;
  [|reflexivity].
destruct (Standard._predict_cov (Warped.super s) _) as [cov|e]; reflexivity.
Qed.

End PredictionMore.

(** ** Shape of the warp *)

Section WarpMore.
Open Scope R_scope.

Lemma tanh_sqr_le_1 (x : R) : 0 <= 1 - Rtrigo_def.tanh x ^ 2 <= 1.
Proof. pose proof (tanh_bounds x). nra. Qed.

Lemma deriv_terms_bounds (mpsi : list (R * R * R)) (y : R) :
  Forall (fun '(a, b, c) => 0 <= a /\ 0 <= b) mpsi ->
  0 <= fold_right Rplus 0
         (List.map (fun '(a, b, c) =>
            a * b * (1 - Rtrigo_def.tanh (b * (y + c)) ^ 2)) mpsi)
    <= fold_right Rplus 0 (List.map (fun '(a, b, c) => a * b) mpsi).
Proof.
intros Hp.
induction Hp as [|[[a b] c] rest [Ha Hb] _ IH]; cbn [List.map fold_right].
- lra.
- pose proof (tanh_sqr_le_1 (b * (y + c))) as Ht.
  set (u := 1 - Rtrigo_def.tanh (b * (y + c)) ^ 2) in *.
  assert (Hab : 0 <= a * b) by nra.
  assert (Hu : 0 <= a * b * u <= a * b) by (split; nra).
  lra.
Qed.

(** X11. With a positive linear coefficient and non-negative amplitudes and
    slopes, every element of [_warp_deriv(y)] is at least [d]: the slope of
    the warp is positive.  The array [y] has an element and the warp a
    tanh term. *)
Theorem _warp_deriv_bounds (s : Warped.self R) (mode : bool)
    (y : ndarray R) :
  let s' := Warped.set_tanh Rtrigo_def.tanh Rtrigo_def.tanh s mode in
  let w := GPy.warping_function (Warped.gp s') in
  monotone_parameters w ->
  size y <> 0%nat -> GPy.psi w <> [] ->
  exists G,
    Warped._warp_deriv s' y = Ok G /\
    forall i j, (i < shape0 y)%nat -> (j < shape1 y)%nat ->
      0 < GPy.d w <= item G i j.
Proof.
intros s' w [Hd Hp] Hy Hm.
assert (Et : Warped.tanh s' = Rtrigo_def.tanh) by (now destruct mode).
destruct (@_warp_deriv_spec s' y Hy Hm) as (G & EG & _ & _ & HG).
exists G. split; [exact EG|]. intros i j Hi Hj.
rewrite (HG i j Hi Hj), Et. fold w.
pose proof (@deriv_terms_bounds (GPy.psi w) (item y i j) Hp). lra.
Qed.

End WarpMore.

(** ** The constraints of a warped mean *)

Section IterationFacts.
Context {T : Type} `{Scalar T}.

(** X13. When the shape of the normalized [y] cannot be broadcast against the
    shape of the latent mean, [predict_mu] raises before any constraint is
    built, whatever [y] holds: numpy's [ValueError] of the subtraction, or
    before it the exception of [self.tanh], which is a [ValueError] too
    when [y] has no element and the warp a tanh term. *)
Theorem predict_mu_shape_mismatch (o : layout) (s : Warped.self T)
    (x y : ndarray T) (cons : pyomo.ConstraintList T)
    (k : kernels.Kernel T) :
  let st := Warped.super s in
  let x_norm := util.normalize (util.x (Standard.norm st)) x in
  let y_norm := util.normalize (util.y (Standard.norm st)) y in
  let K_x_X := kernels.calc k x_norm (Standard.X st) in
  let mpsi := GPy.psi (GPy.warping_function (Warped.gp s)) in
  Standard.kern st = Some k ->
  shape1 K_x_X = shape0 (Standard.woodbury_vector st) ->
  bdim (shape0 y_norm) (shape0 K_x_X) = None \/
  bdim (shape1 y_norm) (shape1 (Standard.woodbury_vector st)) = None ->
  (exists e, Warped.predict_mu o s x y cons = (cons, Raise e)) /\
  (forall wy, Warped.warp s y = Ok wy ->
     Warped.predict_mu o s x y cons = (cons, Raise broadcast_error)) /\
  (size y_norm <> 0 \/ mpsi = [] -> tanh_storable s mpsi y_norm ->
   Warped.predict_mu o s x y cons = (cons, Raise broadcast_error)) /\
  (size y_norm = 0 -> mpsi <> [] ->
   Warped.predict_mu o s x y cons = (cons, Raise vectorize_error)).
Proof.
intros st x_norm y_norm K_x_X mpsi Hk Hmm Hb.
assert (Hstart : Warped.predict_mu o s x y cons =
          match (wy <- Warped._warp s y_norm ;;
                 diff <- subtract wy
                   (mk_nd (shape0 K_x_X)
                      (shape1 (Standard.woodbury_vector st))
                      (fun i j => sum_n (shape1 K_x_X) (fun q =>
                         smul (item K_x_X i q)
                              (item (Standard.woodbury_vector st) q j)))) ;;
                 nditer o diff) with
          | Raise e => (cons, Raise e)
          | Ok ds => let (cons', r) := Warped.add_each ds cons in
                     (cons', _ <- r ;; Ok y)
          end).
{ unfold Warped.predict_mu, Standard._predict_mu, Standard.get_kern.
  fold st x_norm. rewrite Hk. cbn [bind]. fold K_x_X.
  unfold matmul. rewrite Hmm, Nat.eqb_refl. cbn [bind]. reflexivity. }
assert (Hret : forall wy, Warped._warp s y_norm = Ok wy ->
          Warped.predict_mu o s x y cons = (cons, Raise broadcast_error)).
{ intros wy Ew. rewrite Hstart, Ew. cbn [bind].
  destruct (_warp_shape _ _ Ew) as [W0 W1].
  unfold subtract, broadcast2. cbn [shape0 shape1]. rewrite W0, W1.
  destruct Hb as [Hb | Hb]; rewrite Hb; [reflexivity|].
  now destruct (bdim (shape0 y_norm) (shape0 K_x_X)). }
splits.
- case_eq (Warped._warp s y_norm).
  + intros wy Ew. eexists. exact (Hret wy Ew).
  + intros e Ew. exists e. rewrite Hstart, Ew. reflexivity.
- exact Hret.
- intros Hy Hs.
  destruct (@_warp_spec _ _ s y_norm Hy Hs) as (wy & Ew & _).
  exact (Hret wy Ew).
- intros Hy Hm. rewrite Hstart. unfold Warped._warp.
  now rewrite _warp_loop_empty.
Qed.

End IterationFacts.

(** ** Symbolic and numeric evaluation *)

Section Symbolic.
Open Scope R_scope.

(** the value of an operation is the operation on the values, whether
    it was computed on floats or built as an expression *)
Lemma value_sadd (rho : nat -> R) (a b : expr) :
  value rho (sadd a b) = value rho a + value rho b.
Proof. destruct a, b; reflexivity. Qed.

Lemma value_ssub (rho : nat -> R) (a b : expr) :
  value rho (ssub a b) = value rho a - value rho b.
Proof. destruct a, b; reflexivity. Qed.

Lemma value_smul (rho : nat -> R) (a b : expr) :
  value rho (smul a b) = value rho a * value rho b.
Proof. destruct a, b; reflexivity. Qed.

Lemma value_pyomo_tanh (rho : nat -> R) (a : expr) :
  value rho (pyomo_tanh a) = Rtrigo_def.tanh (value rho a).
Proof. destruct a; reflexivity. Qed.

Lemma loop_entry_value (rho : nat -> R) (mpsi : list (expr * expr * expr))
    (v acc : expr) :
  value rho (loop_entry pyomo_tanh mpsi v acc) =
  loop_entry Rtrigo_def.tanh (psi_values rho mpsi) (value rho v)
    (value rho acc).
Proof.
revert acc. induction mpsi as [|[[a b] c] rest IH]; intros acc;
  cbn [loop_entry psi_values List.map].
- reflexivity.
- rewrite IH, value_sadd, value_smul, value_pyomo_tanh, value_smul,
    value_sadd. reflexivity.
Qed.

(** the value of an accumulated element of the symbolic warp *)
Lemma warp_entry_value (rho : nat -> R) (d v : expr)
    (mpsi : list (expr * expr * expr)) :
  value rho (loop_entry pyomo_tanh mpsi v (smul d v)) =
  tanh_warp (value rho d) (psi_values rho mpsi) (value rho v).
Proof.
rewrite loop_entry_value, loop_entry_R, value_smul. reflexivity.
Qed.

(** X12. When the normalized [y] is a row of [c] decision-variable
    expressions and the latent mean a column of [r] elements, numpy
    broadcasts the difference to [r x c]: [predict_mu] appends [r * c]
    constraints, one for every pair of an element of [y] and a query
    point, and not one per query point.  There is a query point and an
    element of [y]. *)
Theorem predict_mu_row_against_column (o : layout) (s : Warped.self expr)
    (numpy_tanh : expr -> expr) (x y : ndarray expr)
    (cons : pyomo.ConstraintList expr) (k : kernels.Kernel expr) :
  let s' := Warped.set_tanh pyomo_tanh numpy_tanh s true in
  let st := Warped.super s' in
  let x_norm := util.normalize (util.x (Standard.norm st)) x in
  let y_norm := util.normalize (util.y (Standard.norm st)) y in
  let K_x_X := kernels.calc k x_norm (Standard.X st) in
  Standard.kern st = Some k ->
  shape1 K_x_X = shape0 (Standard.woodbury_vector st) ->
  shape1 (Standard.woodbury_vector st) = 1%nat ->
  shape0 y_norm = 1%nat ->
  (0 < shape0 K_x_X)%nat -> (0 < shape1 y_norm)%nat ->
  (forall j, (j < shape1 y_norm)%nat ->
     is_expression (item y_norm 0 j) = true) ->
  exists z wy added,
    Warped.predict_mu_latent s' x = Ok z /\
    Warped.warp s' y = Ok wy /\
    Warped.predict_mu o s' x y cons = (cons ++ added, Ok y) /\
    List.length added = (shape0 K_x_X * shape1 y_norm)%nat /\
    forall i j, (i < shape0 K_x_X)%nat -> (j < shape1 y_norm)%nat ->
      In (pyomo.EqualityExpression (ssub (item wy 0 j) (item z i 0)) s0)
         added.
Proof.
intros s' st x_norm y_norm K_x_X Hk Hmm Hw1 Hy0 Pr Pc He.
assert (Hr : bdim (shape0 y_norm) (shape0 K_x_X) = Some (shape0 K_x_X)).
{ rewrite Hy0. apply bdim_1_l. }
assert (Hc : bdim (shape1 y_norm) (shape1 (Standard.woodbury_vector st)) =
             Some (shape1 y_norm)).
{ rewrite Hw1. apply bdim_1_r. }
assert (Hall : forall i j, (i < shape0 y_norm)%nat ->
          (j < shape1 y_norm)%nat -> is_expression (item y_norm i j) = true).
{ intros i j Hi Hj. rewrite Hy0 in Hi.
  replace i with 0%nat by lia. now apply He. }
destruct (@predict_mu_steps expr _ o s' x y cons k
            (shape0 K_x_X) (shape1 y_norm) Hk Hmm Hr Hc Pr Pc)
  as (z & wy & diff & _ & Ez & Z0 & Z1 & Ew & W0 & W1 & Hw & _ & D0 & D1 & Hd
      & E).
{ apply tanh_storable_expressions; [reflexivity | | exact Pc | exact Hall].
  fold st y_norm. lia. }
fold st x_norm y_norm K_x_X in Z0, Z1, W0, W1, Hw, D0, D1.
assert (Hitem : forall i j, (i < shape0 K_x_X)%nat ->
          (j < shape1 y_norm)%nat ->
          item diff i j = ssub (item wy 0 j) (item z i 0)).
{ intros i j Hi Hj. rewrite Hd. rewrite W0, W1, Z0, Z1, Hy0, Hw1.
  rewrite (bidx_lt Hi), (bidx_lt Hj). reflexivity. }
exists z, wy,
  (List.map (fun d => pyomo.EqualityExpression d s0) (in_memory_order o diff)).
splits.
- exact Ez.
- exact Ew.
- rewrite E, add_each_expressions; [reflexivity|].
  rewrite <- (map_id (in_memory_order o diff)).
  apply Forall_memory_order. intros i j Hi Hj. rewrite D0 in Hi.
  rewrite D1 in Hj. rewrite (Hitem i j Hi Hj).
  apply ssub_expression. rewrite Hw by lia.
  apply loop_entry_expression, smul_expression. now apply He.
- now rewrite length_map, in_memory_order_length, D0, D1.
- intros i j Hi Hj. apply in_map_iff. exists (item diff i j). split.
  + now rewrite Hitem.
  + apply In_memory_order. exists i, j. rewrite D0, D1. auto.
Qed.

(** X14. The warp built from pyomo expressions denotes the numeric warp: under
    every valuation of the decision variables, the value of each element
    of [_warp(y)] is [d*v + sum_i a_i*tanh(b_i*(v + c_i))] at the value [v]
    of the element of [y], with the values of the parameters.  The array
    [y] has an element and its elements are pyomo expressions. *)
Theorem _warp_symbolic_value (s : Warped.self expr)
    (numpy_tanh : expr -> expr) (rho : nat -> R) (y : ndarray expr) :
  let s' := Warped.set_tanh pyomo_tanh numpy_tanh s true in
  let w := GPy.warping_function (Warped.gp s') in
  size y <> 0%nat ->
  (forall i j, (i < shape0 y)%nat -> (j < shape1 y)%nat ->
     is_expression (item y i j) = true) ->
  exists z,
    Warped._warp s' y = Ok z /\
    shape0 z = shape0 y /\ shape1 z = shape1 y /\
    forall i j, (i < shape0 y)%nat -> (j < shape1 y)%nat ->
      value rho (item z i j) =
      tanh_warp (value rho (GPy.d w)) (psi_values rho (GPy.psi w))
        (value rho (item y i j)).
Proof.
intros s' w Hy He.
destruct (@_warp_spec _ _ s' y (or_introl Hy)) as (z & Ez & S0 & S1 & Hz).
{ unfold size in Hy.
  apply tanh_storable_expressions; [reflexivity | nia | nia | exact He]. }
exists z. splits; try assumption.
intros i j Hi Hj. rewrite (Hz i j Hi Hj).
change (Warped.tanh s') with pyomo_tanh. apply warp_entry_value.
Qed.

(** X15. What the constraints of [Warped.predict_mu] say: a valuation of the
    decision variables satisfies all the constraints appended exactly when,
    for every element of the broadcast difference, the numeric warp of the
    value of the normalized [y] equals the value of the latent mean.  The
    difference has an element and the elements of the normalized [y] are
    pyomo expressions. *)
Theorem predict_mu_constraints_hold (o : layout) (s : Warped.self expr)
    (numpy_tanh : expr -> expr) (x y : ndarray expr)
    (cons : pyomo.ConstraintList expr) (k : kernels.Kernel expr)
    (r c : nat) :
  let s' := Warped.set_tanh pyomo_tanh numpy_tanh s true in
  let st := Warped.super s' in
  let w := GPy.warping_function (Warped.gp s') in
  let x_norm := util.normalize (util.x (Standard.norm st)) x in
  let y_norm := util.normalize (util.y (Standard.norm st)) y in
  let K_x_X := kernels.calc k x_norm (Standard.X st) in
  Standard.kern st = Some k ->
  shape1 K_x_X = shape0 (Standard.woodbury_vector st) ->
  bdim (shape0 y_norm) (shape0 K_x_X) = Some r ->
  bdim (shape1 y_norm) (shape1 (Standard.woodbury_vector st)) = Some c ->
  (0 < r)%nat -> (0 < c)%nat ->
  (forall i j, (i < shape0 y_norm)%nat -> (j < shape1 y_norm)%nat ->
     is_expression (item y_norm i j) = true) ->
  exists z added,
    Warped.predict_mu_latent s' x = Ok z /\
    Warped.predict_mu o s' x y cons = (cons ++ added, Ok y) /\
    forall rho,
      Forall (pyomo.holds rho) added <->
      forall i j, (i < r)%nat -> (j < c)%nat ->
        tanh_warp (value rho (GPy.d w)) (psi_values rho (GPy.psi w))
          (value rho (item y_norm (bidx (shape0 y_norm) i)
                                  (bidx (shape1 y_norm) j))) =
        value rho (item z (bidx (shape0 z) i) (bidx (shape1 z) j)).
Proof.
intros s' st w x_norm y_norm K_x_X Hk Hmm Hr Hc Pr Pc He.
destruct (bdim_pos _ _ Hr Pr) as [Py0 _].
destruct (bdim_pos _ _ Hc Pc) as [Py1 _].
destruct (@predict_mu_steps expr _ o s' x y cons k r c Hk Hmm Hr Hc Pr Pc)
  as (z & wy & diff & _ & Ez & Z0 & Z1 & Ew & W0 & W1 & Hw & Ed & D0 & D1
      & Hd & E).
{ now apply tanh_storable_expressions. }
fold st y_norm in W0, W1, Hw.
exists z,
  (List.map (fun d => pyomo.EqualityExpression d s0) (in_memory_order o diff)).
split; [exact Ez|]. split.
{ rewrite E, add_each_expressions; [reflexivity|].
  rewrite <- (map_id (in_memory_order o diff)).
  apply Forall_memory_order. intros i j Hi Hj.
  rewrite D0 in Hi. rewrite D1 in Hj.
  pose proof (@bdim_bidx_l _ _ _ _ Hr Hi) as Bi.
  pose proof (@bdim_bidx_l _ _ _ _ Hc Hj) as Bj.
  rewrite Hd. apply ssub_expression. rewrite W0, W1, (Hw _ _ Bi Bj).
  apply loop_entry_expression, smul_expression. now apply He. }
intros rho.
assert (Hv : forall i j, (i < r)%nat -> (j < c)%nat ->
          value rho (item diff i j) =
          tanh_warp (value rho (GPy.d w)) (psi_values rho (GPy.psi w))
            (value rho (item y_norm (bidx (shape0 y_norm) i)
                                    (bidx (shape1 y_norm) j))) -
          value rho (item z (bidx (shape0 z) i) (bidx (shape1 z) j))).
{ intros i j Hi Hj. rewrite Hd, value_ssub, W0, W1.
  rewrite Hw;
    [| exact (@bdim_bidx_l _ _ _ _ Hr Hi) | exact (@bdim_bidx_l _ _ _ _ Hc Hj)].
  change (Warped.tanh s') with pyomo_tanh. fold w.
  now rewrite warp_entry_value. }
rewrite Forall_memory_order. rewrite D0, D1.
split; intros Hall i j Hi Hj; specialize (Hall i j Hi Hj).
- unfold pyomo.holds in Hall. simpl in Hall.
  rewrite (Hv i j Hi Hj) in Hall. lra.
- unfold pyomo.holds. simpl. rewrite (Hv i j Hi Hj). lra.
Qed.

End Symbolic.

(** ** Inversion of an array of targets *)

Section BatchInverse.
Open Scope R_scope.

Lemma first_raise_some (l : list (result R)) (e0 : exn) :
  Forall (fun r => forall e, r = Raise e -> e = e0) l ->
  Exists (fun r => exists e, r = Raise e) l ->
  first_raise l = Some e0.
Proof.
intros Hall Hex. induction Hex as [r l (e & ->) | r l _ IH]; simpl.
- inversion Hall as [|? ? Hr _]; subst. now rewrite (Hr e eq_refl).
- inversion Hall as [|? ? Hr Hl]; subst. destruct r as [v|e].
  + now apply IH.
  + now rewrite (Hr e eq_refl).
Qed.

(** [_warp_inv_scalar] raises nothing but its [RuntimeError] *)
Lemma _warp_inv_scalar_raises
    (root_scalar : (R -> result (ndarray R)) -> R * R -> result R)
    (s : Warped.self R) (xi : R) (bracket : R * R) (e : exn) :
  Warped._warp_inv_scalar root_scalar s xi bracket = Raise e ->
  e = RuntimeError "Failed to find root".
Proof.
unfold Warped._warp_inv_scalar.
destruct (root_scalar (Warped.objective s xi) bracket); [discriminate|].
now intros [= <-].
Qed.

(** X17. One target that the root finder fails on aborts the whole batch: if
    [root_scalar] raises, whatever the exception, for one element of [xi]
    over the default bracket, then [_warp_inv] and [warp_inv] raise the
    [RuntimeError] of [_warp_inv_scalar] and no element is returned. *)
Theorem warp_inv_aborts
    (root_scalar : (R -> result (ndarray R)) -> R * R -> result R)
    (s : Warped.self R) (xi : ndarray R) (i j : nat) (e : exn) :
  (i < shape0 xi)%nat -> (j < shape1 xi)%nat ->
  root_scalar (Warped.objective s (item xi i j)) Warped.default_bracket =
    Raise e ->
  Warped._warp_inv root_scalar s xi =
    Raise (RuntimeError "Failed to find root") /\
  Warped.warp_inv root_scalar s xi =
    Raise (RuntimeError "Failed to find root").
Proof.
intros Hi Hj He.
assert (E : Warped._warp_inv root_scalar s xi =
            Raise (RuntimeError "Failed to find root")).
{ unfold Warped._warp_inv, vectorize.
  destruct (size xi =? 0)%nat eqn:Es.
  { apply Nat.eqb_eq in Es. unfold size in Es. nia. }
  rewrite first_raise_some
    with (e0 := RuntimeError "Failed to find root"); [reflexivity | |].
  - apply Forall_forall. intros r Hr e' ->.
    apply in_map_iff in Hr. destruct Hr as (v & Hv & _).
    eapply _warp_inv_scalar_raises. exact Hv.
  - apply Exists_exists.
    exists (Warped._warp_inv_scalar root_scalar s (item xi i j)
              Warped.default_bracket).
    split.
    + apply (in_map (fun v => Warped._warp_inv_scalar root_scalar s v
                                Warped.default_bracket)).
      apply In_flat. exists i, j. auto.
    + unfold Warped._warp_inv_scalar. rewrite He. eauto. }
split; [exact E|]. unfold Warped.warp_inv. now rewrite E.
Qed.

(** X18. Under the identity output normalizer, [warp_inv] on a single target is
    [warp_inv_scalar] with the default bracket (-2.5, 2.5): the same root,
    or the same error. *)
Theorem warp_inv_of_scalar
    (root_scalar : (R -> result (ndarray R)) -> R * R -> result R)
    (s : Warped.self R) (xi : R) :
  util.y (Standard.norm (Warped.super s)) = util.IdentityNorm R ->
  Warped.warp_inv root_scalar s (array11 xi) =
    (root <- Warped.warp_inv_scalar root_scalar s xi Warped.default_bracket ;;
     Ok (array11 root)).
Proof.
intros Hid.
unfold Warped.warp_inv, Warped.warp_inv_scalar, Warped._warp_inv, vectorize.
rewrite Hid. cbn. unfold Warped.default_bracket.
destruct (Warped._warp_inv_scalar root_scalar s xi (-5 / 2, 5 / 2))
  as [root|e]; reflexivity.
Qed.

End BatchInverse.

(** ** Arrays without elements, arrays of numbers *)

Section Degenerate.
Context {T : Type} `{Scalar T}.

(** X20. [self.tanh] is a [np.vectorize] and refuses an array without
    elements: [warp_deriv] raises numpy's [ValueError] when the normalized
    [y] has no element and also, for every [y], when the warp has no tanh
    term; [warp] raises it when the normalized [y] has no element and the
    warp a tanh term, and returns [d * y_norm] when the warp has no tanh
    term. *)
Theorem empty_input_raises (s : Warped.self T) (y : ndarray T) :
  let y_norm := util.normalize (util.y (Standard.norm (Warped.super s))) y in
  let w := GPy.warping_function (Warped.gp s) in
  (size y_norm = 0 \/ GPy.psi w = [] ->
   Warped.warp_deriv s y = Raise vectorize_error) /\
  (size y_norm = 0 -> GPy.psi w <> [] ->
   Warped.warp s y = Raise vectorize_error) /\
  (GPy.psi w = [] -> Warped.warp s y = Ok (np.map (smul (GPy.d w)) y_norm)).
Proof.
intros y_norm w. splits.
- intros Hy. unfold Warped.warp_deriv. fold y_norm.
  now apply _warp_deriv_empty.
- intros Hy Hm. unfold Warped.warp, Warped._warp. fold y_norm w.
  now apply _warp_loop_empty.
- intros Hm. unfold Warped.warp, Warped._warp. fold y_norm w.
  now rewrite Hm.
Qed.

End Degenerate.

(** X21. With an array [y] of floats the elements of the difference are
    numbers and not pyomo expressions: [d.item() == 0] is a Python bool
    and the first [cons.add] refuses it.  [Warped.predict_mu] raises
    [ValueError], no constraint is added and [y] is not returned. *)
Theorem predict_mu_numbers (o : layout) (s : Warped.self R)
    (x y : ndarray R) (cons : pyomo.ConstraintList R)
    (k : kernels.Kernel R) (r c : nat) :
  let st := Warped.super s in
  let x_norm := util.normalize (util.x (Standard.norm st)) x in
  let y_norm := util.normalize (util.y (Standard.norm st)) y in
  let K_x_X := kernels.calc k x_norm (Standard.X st) in
  Standard.kern st = Some k ->
  shape1 K_x_X = shape0 (Standard.woodbury_vector st) ->
  bdim (shape0 y_norm) (shape0 K_x_X) = Some r ->
  bdim (shape1 y_norm) (shape1 (Standard.woodbury_vector st)) = Some c ->
  0 < r -> 0 < c ->
  Warped.predict_mu o s x y cons = (cons, Raise pyomo.trivial_boolean_error).
Proof.
intros st x_norm y_norm K_x_X Hk Hmm Hr Hc Pr Pc.
destruct (@predict_mu_steps R _ o s x y cons k r c Hk Hmm Hr Hc Pr Pc)
  as (z & wy & diff & _ & _ & _ & _ & _ & _ & _ & _ & _ & D0 & D1 & _ & E).
{ apply tanh_storable_numbers. reflexivity. }
rewrite E.
pose proof (in_memory_order_length o diff) as L. rewrite D0, D1 in L.
destruct (in_memory_order o diff) as [|d ds]; [simpl in L; nia|].
reflexivity.
Qed.


(** ** The further properties at the example models *)

Lemma unknown_kernel_raises_example :
  exists e,
    Standard.__init__ kernels_module example_gp "Periodic" (identity_norm R) =
      ([], Raise e) /\
    exn_class e = "AttributeError"%string.
Proof.
pose proof (@unknown_kernel_raises R Rtrigo_def.tanh Rtrigo_def.tanh
              kernels_module example_gp
              {| GPy.base := example_gp;
                 GPy.warping_function := example_warping |}
              "Periodic"%string (identity_norm R) true None eq_refl) as Hu.
destruct Hu as (E & _). eexists. split; [exact E | reflexivity].
Defined.

Lemma constructor_exception_propagates_example :
  Standard.__init__ refusing_module example_gp "RBF" (identity_norm R) =
    ([], Raise (ValueError "lengthscale must be positive")).
Proof.
refine (proj1 (@constructor_exception_propagates R Rtrigo_def.tanh
                 Rtrigo_def.tanh refusing_module example_gp example_warping
                 "RBF"%string (identity_norm R) true _ _ eq_refl eq_refl _)).
discriminate.
Defined.

Lemma init_postcondition_example :
  Standard.N example_standard = shape0 (Standard.X example_standard) /\
  Standard.kern example_standard = Some (RBF 1 1).
Proof.
destruct (@init_postcondition R kernels_module example_gp "RBF"%string
            (identity_norm R) [] example_standard eq_refl)
  as (HN & _ & _ & _ & _ & _ & _).
split; [exact HN | reflexivity].
Defined.

Lemma predictions_need_kernel_example :
  Warped.predict_cov kernelless_warped (array11 0%R) =
    ([Warped.predict_cov_warning],
     Raise (AttributeError "object has no attribute 'kern'")).
Proof.
destruct (@predictions_need_kernel R _ C_order kernelless_warped
            (array11 0%R) (array11 0%R) [] eq_refl)
  as (_ & _ & _ & _ & _ & _ & _ & _ & E).
exact E.
Defined.

Lemma predict_mu_shapes_example :
  exists mu,
    fst (Standard.predict_mu example_standard (array11 0%R) None None) =
      Ok mu /\
    shape0 mu = 1 /\ shape1 mu = 1.
Proof.
destruct (@predict_mu_shapes R _ example_standard (array11 0%R) (RBF 1 1)
            eq_refl (RBF_well_shaped 1 1)) as (Hok & _).
destruct (Hok eq_refl) as (mu & E & S0 & S1 & _).
exists mu. split; [exact E|]. split; [exact S0 | exact S1].
Defined.

Lemma predict_cov_returns_iff_example :
  exists C, Standard.predict_cov example_standard (array11 0%R) = Ok C.
Proof.
apply (@predict_cov_returns_iff R _ example_standard (array11 0%R) (RBF 1 1)
         eq_refl (RBF_well_shaped 1 1)).
split; reflexivity.
Defined.

Lemma _warp_deriv_bounds_example :
  exists G,
    Warped._warp_deriv example_warped (array11 0%R) = Ok G /\
    (1 <= item G 0 0)%R.
Proof.
destruct (@_warp_deriv_bounds example_warped true (array11 0%R)
            example_monotone (Nat.neq_succ_0 0))
  as (G & E & HG); [discriminate|].
exists G. split; [exact E|].
destruct (HG 0%nat 0%nat) as (_ & Hlo); simpl; try lia.
simpl in Hlo. exact Hlo.
Defined.

(** two query points and a row of three decision variables, a difference
    laid out column after column: six constraints, the first two of them
    for the first variable *)
Lemma predict_mu_row_against_column_example :
  exists cons,
    Warped.predict_mu F_order symbolic_warped
      (of_rows 1 [[Num 0]; [Num 1]])
      (of_rows 3 [[Var 0; Var 1; Var 2]]) [] =
      (cons, Ok (of_rows 3 [[Var 0; Var 1; Var 2]])) /\
    List.length cons = 6.
Proof.
destruct (@predict_mu_row_against_column F_order symbolic_warped pyomo_tanh
            (of_rows 1 [[Num 0]; [Num 1]])
            (of_rows 3 [[Var 0; Var 1; Var 2]]) [] constant_kernel
            eq_refl eq_refl eq_refl eq_refl Nat.lt_0_2 (Nat.lt_0_succ 2))
  as (z & wy & added & _ & _ & E & L & _).
- intros j Hj.
  destruct j as [|[|[|j]]]; [reflexivity | reflexivity | reflexivity |].
  simpl in Hj. lia.
- exists ([] ++ added). split; [exact E|]. rewrite app_nil_l. exact L.
Defined.

(** three decision variables in a column against two query points *)
Lemma predict_mu_shape_mismatch_example :
  Warped.predict_mu C_order symbolic_warped
    (of_rows 1 [[Num 0]; [Num 1]])
    (of_rows 1 [[Var 0]; [Var 1]; [Var 2]]) [] =
  ([], Raise broadcast_error).
Proof.
destruct (@predict_mu_shape_mismatch expr _ C_order symbolic_warped
            (of_rows 1 [[Num 0]; [Num 1]])
            (of_rows 1 [[Var 0]; [Var 1]; [Var 2]]) [] constant_kernel
            eq_refl eq_refl (or_introl eq_refl))
  as (_ & Hret & _).
eapply Hret. reflexivity.
Defined.

(** the warp of one decision variable *)
Lemma _warp_symbolic_value_example :
  exists z,
    Warped._warp symbolic_warped (array11 (Var 0)) = Ok z /\
    forall rho,
      value rho (item z 0 0) =
      (2 * rho 0%nat + 3 * Rtrigo_def.tanh (2 * (rho 0%nat + 1)))%R.
Proof.
exists (mk_nd 1 1 (fun _ _ =>
          SumExpression (ProductExpression (Num 2) (Var 0))
            (ProductExpression (Num 3)
               (TanhExpression
                  (ProductExpression (Num 2)
                     (SumExpression (Var 0) (Num 1))))))).
split; [reflexivity|]. intros rho.
destruct (@_warp_symbolic_value symbolic_warped pyomo_tanh rho
            (array11 (Var 0)) (Nat.neq_succ_0 0) (fun i j _ _ => eq_refl))
  as (z & Ez & _ & _ & Hz).
injection Ez as <-.
rewrite (Hz 0%nat 0%nat Nat.lt_0_1 Nat.lt_0_1).
unfold tanh_warp. simpl. ring.
Defined.

(** one decision variable: the constraint says that its warp is 2 *)
Lemma predict_mu_constraints_hold_example :
  exists added,
    Warped.predict_mu C_order symbolic_warped (array11 (Num 0))
      (array11 (Var 0)) [] = (added, Ok (array11 (Var 0))) /\
    forall rho,
      Forall (pyomo.holds rho) added ->
      (2 * rho 0%nat + 3 * Rtrigo_def.tanh (2 * (rho 0%nat + 1)) = 2)%R.
Proof.
destruct (@predict_mu_constraints_hold C_order symbolic_warped pyomo_tanh
            (array11 (Num 0)) (array11 (Var 0)) [] constant_kernel 1 1
            eq_refl eq_refl eq_refl eq_refl Nat.lt_0_1 Nat.lt_0_1)
  as (z & added & Ez & E & Hsem).
- intros i j Hi Hj. reflexivity.
- exists ([] ++ added). split; [exact E|].
  intros rho Hall. rewrite app_nil_l in Hall.
  pose proof (proj1 (Hsem rho) Hall 0%nat 0%nat Nat.lt_0_1 Nat.lt_0_1) as Hv.
  injection Ez as <-. unfold tanh_warp in Hv. simpl in Hv. lra.
Defined.

(** the derivative of an array without rows *)
Lemma empty_input_raises_example :
  Warped.warp example_warped (of_rows 1 []) = Raise vectorize_error /\
  Warped.warp_deriv example_warped (of_rows 1 []) = Raise vectorize_error.
Proof.
destruct (@empty_input_raises R _ example_warped (of_rows 1 []))
  as (Hd & Hw & _).
split; [apply Hw; [reflexivity | discriminate] | apply Hd; now left].
Defined.

(** an array of floats where decision variables are expected *)
Lemma predict_mu_numbers_example :
  Warped.predict_mu C_order example_warped (array11 0%R) (array11 0%R) [] =
    ([], Raise (ValueError
       "Invalid constraint expression: it resolved to a trivial Boolean")).
Proof.
exact (@predict_mu_numbers C_order example_warped (array11 0%R)
         (array11 0%R) [] (RBF 1 1) 1 1
         eq_refl eq_refl eq_refl eq_refl Nat.lt_0_1 Nat.lt_0_1).
Defined.

(** the second target, 10, is not reached between -2.5 and 2.5 *)
Lemma warp_inv_aborts_example :
  Warped.warp_inv (scipy.bracketing_solver (fun _ a _ => a))
    example_warped (of_rows 1 [[0]; [10]]%R) =
  Raise (RuntimeError "Failed to find root").
Proof.
refine (proj2 (@warp_inv_aborts (scipy.bracketing_solver (fun _ a _ => a))
                 example_warped (of_rows 1 [[0]; [10]]%R) 1 0
                 (ValueError "f(a) and f(b) must have different signs")
                 _ _ _)).
- simpl. lia.
- simpl. lia.
- apply (@bracketing_solver_checks (fun _ a _ => a) _ _ _ _ _
           (objective_value example_warped 10 (-5 / 2) eq_refl)
           (objective_value example_warped 10 (5 / 2) eq_refl)).
  unfold tanh_warp. simpl.
  pose proof (tanh_bounds (1 * (-5 / 2 + 0))) as B1.
  pose proof (tanh_bounds (1 * (5 / 2 + 0))) as B2.
  nra.
Defined.

Lemma warp_inv_of_scalar_example :
  Warped.warp_inv (scipy.bracketing_solver (fun _ a _ => a))
    example_warped (array11 10%R) =
  Raise (RuntimeError "Failed to find root").
Proof.
rewrite (@warp_inv_of_scalar (scipy.bracketing_solver (fun _ a _ => a))
           example_warped 10%R eq_refl).
assert (E : Warped.warp_inv_scalar (scipy.bracketing_solver (fun _ a _ => a))
              example_warped 10 Warped.default_bracket =
            Raise (RuntimeError "Failed to find root")).
{ unfold Warped.warp_inv_scalar, Warped._warp_inv_scalar.
  cbn [fst snd util.y util.normalize Standard.norm Warped.super
       example_warped example_standard identity_norm util.IdentityNorm
       item array12 Warped.default_bracket].
  rewrite (@bracketing_solver_checks (fun _ a _ => a) _ _ _ _ _
             (objective_value example_warped 10 (-5 / 2) eq_refl)
             (objective_value example_warped 10 (5 / 2) eq_refl));
    [reflexivity|].
  unfold tanh_warp. simpl.
  pose proof (tanh_bounds (1 * (-5 / 2 + 0))) as B1.
  pose proof (tanh_bounds (1 * (5 / 2 + 0))) as B2.
  nra. }
rewrite E. reflexivity.
Defined.
